(** * The Bedrock provider adapter and the Anthropic message converter

    A shallow embedding of

      - [src/libs/agent-runtime/utils/anthropicHelpers.ts]
        ([buildAnthropicBlock], [buildAnthropicMessage], [buildAnthropicMessages]) and
      - [src/libs/agent-runtime/bedrock/index.ts]
        (class [LobeBedrockAI]: its constructor, [chat], [invokeClaudeModel],
        [invokeLlamaModel]).

    JavaScript numbers are IEEE 754 doubles and are modelled by Rocq's primitive
    floats.  A property that may be [undefined] is an [option]; [JSON.stringify]
    leaves such properties out.  Code that can throw, or that touches the outside
    world (the vendor client, the console, the debug sink), runs in the monad
    [Run]: an exception monad over a chronological trace of the effects performed.
    The text produced by [JSON.stringify] is represented by the JSON document it
    denotes. *)

From Stdlib Require Import List Bool PrimFloat String.
Import ListNotations.
Open Scope string_scope.
Open Scope list_scope.

Set Implicit Arguments.

(* ================================================================= *)
(** ** JavaScript values that reach the wire *)

#[local] Set Warnings "-register-all".

Inductive Json : Type :=
| JNull
| JNumber (x : float)
| JString (s : string)
| JArray (items : list Json)
| JObject (fields : list (string * Json)).

(** Property lists of an object literal: [None] is a property whose value is
    [undefined]. *)
Definition ObjectLiteral := list (string * option Json).

(** The properties [JSON.stringify] keeps: those that are not [undefined], in
    the order in which the literal lists them. *)
Fixpoint own_fields (props : ObjectLiteral) : list (string * Json) :=
  match props with
  | [] => []
  | (k, Some v) :: rest => (k, v) :: own_fields rest
  | (_, None) :: rest => own_fields rest
  end.

Definition JSON_stringify (props : ObjectLiteral) : Json :=
  JObject (own_fields props).

Fixpoint assoc (k : string) (fields : list (string * Json)) : option Json :=
  match fields with
  | [] => None
  | (k', v) :: rest => if String.eqb k k' then Some v else assoc k rest
  end.

(** [field k j]: the value of property [k] of the JSON object [j]. *)
Definition field (k : string) (j : Json) : option Json :=
  match j with
  | JObject fields => assoc k fields
  | _ => None
  end.

Definition has_field (k : string) (j : Json) : Prop := field k j <> None.

(** A number as [JSON.stringify] writes it: [NaN] and the infinities become
    [null], and both zeros are written [0]. *)
Definition json_of_number (x : float) : Json :=
  if is_finite x
  then (if is_zero x then JNumber 0 else JNumber x)
  else JNull.

(** JavaScript truthiness of a number: [0], [-0] and [NaN] are falsy. *)
Definition truthy_number (x : float) : bool :=
  negb (is_zero x || is_nan x).

(** JavaScript truthiness of a string: only the empty string is falsy. *)
Definition truthy_string (s : string) : bool :=
  match s with
  | EmptyString => false
  | String _ _ => true
  end.

(** [x || d] for an optional number [x]. *)
Definition number_or (x : option float) (d : float) : float :=
  match x with
  | Some v => if truthy_number v then v else d
  | None => d
  end.

(** [x ?? d] for an optional string [x]. *)
Definition nullish_or (x : option string) (d : string) : string :=
  match x with
  | Some v => v
  | None => d
  end.

(* ================================================================= *)
(** ** The unified chat types ([../types]) *)

Inductive LLMRoleType := role_assistant | role_function | role_system | role_user.

Definition role_eqb (a b : LLMRoleType) : bool :=
  match a, b with
  | role_assistant, role_assistant
  | role_function, role_function
  | role_system, role_system
  | role_user, role_user => true
  | _, _ => false
  end.

Definition role_name (r : LLMRoleType) : string :=
  match r with
  | role_assistant => "assistant"
  | role_function => "function"
  | role_system => "system"
  | role_user => "user"
  end.

(** [{ type: 'text', text }] *)
Record TextContent := { text : string }.

(** [{ type: 'image_url', image_url: { url, detail? } }] *)
Record ImageUrlContent := { url : string; detail : option string }.

Inductive UserMessageContentPart :=
| part_text (c : TextContent)
| part_image_url (image_url : ImageUrlContent).

(** [content: string | UserMessageContentPart[]] *)
Inductive MessageContent :=
| content_string (s : string)
| content_parts (parts : list UserMessageContentPart).

Record OpenAIChatMessage := {
  content : MessageContent;
  role : LLMRoleType
}.

Record ChatStreamPayload := {
  max_tokens : option float;
  messages : list OpenAIChatMessage;
  model : string;
  temperature : option float;
  top_p : option float
}.

(** The caller's per-token callbacks are opaque to the adapter; a callback
    object is identified by a label. *)
Definition ChatStreamCallbacks := string.

Record ChatCompetitionOptions := { callback : option ChatStreamCallbacks }.

(* ================================================================= *)
(** ** The vendor's message types ([Anthropic.Messages]) *)

(** [source] of an image block; its [type] is the constant ['base64'].  The two
    other properties hold whatever the URI parser returned (the source casts
    them without a check). *)
Record ImageSource := {
  data : option Json;
  media_type : option Json
}.

Inductive AnthropicBlock :=
| block_text (c : TextContent)
| block_image (source : ImageSource).

Inductive AnthropicContent :=
| vendor_string (s : string)
| vendor_blocks (blocks : list AnthropicBlock).

Record MessageParam := {
  vendor_content : AnthropicContent;
  vendor_role : LLMRoleType
}.

(** *** Serialisation of the objects above *)

Definition json_of_text (c : TextContent) : Json :=
  JObject [("type", JString "text"); ("text", JString (text c))].

Definition json_of_part (p : UserMessageContentPart) : Json :=
  match p with
  | part_text c => json_of_text c
  | part_image_url i =>
      JObject [("type", JString "image_url");
               ("image_url",
                 JSON_stringify [("url", Some (JString (url i)));
                                 ("detail", option_map JString (detail i))])]
  end.

Definition json_of_content (c : MessageContent) : Json :=
  match c with
  | content_string s => JString s
  | content_parts parts => JArray (map json_of_part parts)
  end.

Definition json_of_block (b : AnthropicBlock) : Json :=
  match b with
  | block_text c => json_of_text c
  | block_image src =>
      JSON_stringify
        [("source", Some (JSON_stringify [("data", data src);
                                          ("media_type", media_type src);
                                          ("type", Some (JString "base64"))]));
         ("type", Some (JString "image"))]
  end.

Definition json_of_vendor_content (c : AnthropicContent) : Json :=
  match c with
  | vendor_string s => JString s
  | vendor_blocks blocks => JArray (map json_of_block blocks)
  end.

Definition json_of_message (m : MessageParam) : Json :=
  JObject [("content", json_of_vendor_content (vendor_content m));
           ("role", JString (role_name (vendor_role m)))].

(* ================================================================= *)
(** ** Thrown values and the structured errors ([../error], [../utils/createError]) *)

Inductive AgentRuntimeErrorType := InvalidBedrockCredentials | BedrockBizError.

Inductive ModelProvider := Bedrock.

(** The [error] object handed to [AgentRuntimeError.chat]: the Claude path
    writes [body], [message] and [type]; the Llama path writes [region] too. *)
Record ErrorDetail := {
  error_body : option Json;
  error_message : option string;
  error_region : option string;
  error_type : option string
}.

Record ChatCompletionErrorPayload := {
  error : option ErrorDetail;
  errorType : AgentRuntimeErrorType;
  provider : option ModelProvider;
  payload_region : option string
}.

(** What a collaborator throws: some object, of which the adapter reads
    [name], [message] and [$metadata]; a property it lacks reads as
    [undefined]. *)
Record JsError := {
  name : option string;
  message : option string;
  metadata : option Json
}.

Inductive Thrown :=
| thrown_error (e : JsError)
| thrown_agent (e : ChatCompletionErrorPayload).

Definition err_name (t : Thrown) : option string :=
  match t with thrown_error e => name e | thrown_agent _ => None end.

Definition err_message (t : Thrown) : option string :=
  match t with thrown_error e => message e | thrown_agent _ => None end.

Definition err_metadata (t : Thrown) : option Json :=
  match t with thrown_error e => metadata e | thrown_agent _ => None end.

(** Modelled from the spec: [AgentRuntimeError] lives in [../utils/createError],
    which is not part of the sources at hand.  The spec describes the errors the
    adapter raises as structured values carrying exactly what they were built
    from (kind, provider name, region, original message, original error type
    name, raw metadata): [createError] builds the value from an error kind
    alone, [chat] from a complete payload. *)
Definition AgentRuntimeError_createError (t : AgentRuntimeErrorType) : ChatCompletionErrorPayload :=
  {| error := None; errorType := t; provider := None; payload_region := None |}.

Definition AgentRuntimeError_chat (p : ChatCompletionErrorPayload) : ChatCompletionErrorPayload := p.

(* ================================================================= *)
(** ** The vendor SDK's objects *)

(** The argument of [new BedrockRuntimeClient]. *)
Record BedrockRuntimeClient := {
  credentials_accessKeyId : string;
  credentials_secretAccessKey : string;
  client_region : string
}.

Record InvokeModelWithResponseStreamCommand := {
  accept : string;
  body : Json;
  contentType : string;
  modelId : string
}.

(** The vendor's response handle: the chunks it will deliver. *)
Record BedrockResponse := { response_chunks : list Json }.

Record ReadableStream := { chunks : list string }.

(** [stream.tee()]: two branches over the same chunks. *)
Definition tee (s : ReadableStream) : ReadableStream * ReadableStream := (s, s).

Record StreamingTextResponse := { response_stream : ReadableStream }.

(* ================================================================= *)
(** ** Effects *)

Inductive Event :=
| ev_new_client (c : BedrockRuntimeClient)
| ev_send (c : BedrockRuntimeClient) (cmd : InvokeModelWithResponseStreamCommand)
| ev_debugStream (s : ReadableStream)
| ev_console_error (t : Thrown).

Inductive Completion (A : Type) :=
| Normal (a : A)
| Abrupt (t : Thrown).

Arguments Normal {A} a.
Arguments Abrupt {A} t.

(** A computation completes normally or abruptly and leaves the trace of the
    effects it performed, oldest first.  An [async] function's promise is
    identified with the completion it settles to: [await] is [bind], a
    rejection is [Abrupt]. *)
Definition Run (A : Type) : Type := Completion A * list Event.

Definition ret {A} (a : A) : Run A := (Normal a, []).

Definition throw {A} (t : Thrown) : Run A := (Abrupt t, []).

Definition bind {A B} (m : Run A) (k : A -> Run B) : Run B :=
  match m with
  | (Normal a, w) => let '(c, w') := k a in (c, w ++ w')
  | (Abrupt t, w) => (Abrupt t, w)
  end.

Definition try_catch {A} (m : Run A) (handler : Thrown -> Run A) : Run A :=
  match m with
  | (Normal a, w) => (Normal a, w)
  | (Abrupt t, w) => let '(c, w') := handler t in (c, w ++ w')
  end.

Definition emit (e : Event) : Run unit := (Normal tt, [e]).

(** A pure call that may throw. *)
Definition lift {A} (c : Completion A) : Run A := (c, []).

Declare Scope run_scope.
Delimit Scope run_scope with run.
Notation "x <- m ;; k" := (bind m (fun x => k))
  (at level 100, m at next level, right associativity) : run_scope.
Notation "m ;;; k" := (bind m (fun _ => k))
  (at level 100, right associativity) : run_scope.
Open Scope run_scope.

Definition outcome {A} (r : Run A) : Completion A := fst r.
Definition trace {A} (r : Run A) : list Event := snd r.

(** The commands a trace shows as sent to the vendor. *)
Fixpoint sent (w : list Event) : list InvokeModelWithResponseStreamCommand :=
  match w with
  | [] => []
  | ev_send _ cmd :: rest => cmd :: sent rest
  | _ :: rest => sent rest
  end.

(* ================================================================= *)
(** ** Collaborators

    Everything the two files import and call but do not define.  Each is a
    parameter of the development; a call that may throw returns a
    [Completion]. *)

(** [{ mimeType, base64 }], as far as the converter reads the parser's result. *)
Record UriParserResult := {
  base64 : option Json;
  mimeType : option Json
}.

Class Collaborators := {
  (** [new BedrockRuntimeClient(config)]: the SDK's constructor returns, or
      throws on a configuration it refuses.  A client is identified with the
      configuration it was constructed from. *)
  new_BedrockRuntimeClient : BedrockRuntimeClient -> Completion unit;
  (** [./uriParser] *)
  parseDataUri : string -> Completion UriParserResult;
  (** [ai/prompts] *)
  experimental_buildLlama2Prompt : list OpenAIChatMessage -> Completion string;
  (** [client.send(command)], awaited *)
  client_send : BedrockRuntimeClient -> InvokeModelWithResponseStreamCommand ->
                Completion BedrockResponse;
  (** [ai]: the Claude parser takes the caller's callbacks, the Llama one does not *)
  AWSBedrockStream : BedrockResponse -> option ChatStreamCallbacks ->
                     Completion ReadableStream;
  AWSBedrockLlama2Stream : BedrockResponse -> Completion ReadableStream;
  (** [process.env] *)
  process_env : string -> option string;
  (** [../utils/debugStream], an asynchronous drain: the call returns a promise
      (the source chains [.catch] on it); this is the state it settles to *)
  debugStream : ReadableStream -> Completion unit
}.

(* ================================================================= *)
(** ** [utils/anthropicHelpers.ts] *)

(** [xs.map(f)] for a callback that may throw: elements are visited from left
    to right and the first exception ends the traversal. *)
Fixpoint array_map {A B} (f : A -> Completion B) (xs : list A) : Completion (list B) :=
  match xs with
  | [] => Normal []
  | x :: rest =>
      match f x with
      | Abrupt t => Abrupt t
      | Normal y =>
          match array_map f rest with
          | Abrupt t => Abrupt t
          | Normal ys => Normal (y :: ys)
          end
      end
  end.

Section AnthropicHelpers.

Context {C : Collaborators}.

Definition buildAnthropicBlock (content : UserMessageContentPart)
  : Completion AnthropicBlock :=
  match content with
  | part_text c => Normal (block_text c)
  | part_image_url image_url =>
      match parseDataUri (url image_url) with
      | Abrupt t => Abrupt t
      | Normal parsed =>
          Normal (block_image {| data := base64 parsed;
                                 media_type := mimeType parsed |})
      end
  end.

Definition buildAnthropicMessage (message : OpenAIChatMessage)
  : Completion MessageParam :=
  let converted :=
    match content message with
    | content_string s => Normal (vendor_string s)
    | content_parts parts =>
        match array_map buildAnthropicBlock parts with
        | Abrupt t => Abrupt t
        | Normal blocks => Normal (vendor_blocks blocks)
        end
    end in
  match converted with
  | Abrupt t => Abrupt t
  | Normal c =>
      Normal {| vendor_content := c;
                vendor_role :=
                  if role_eqb (role message) role_function
                     || role_eqb (role message) role_system
                  then role_assistant
                  else role message |}
  end.

Definition buildAnthropicMessages (messages : list OpenAIChatMessage)
  : Completion (list MessageParam) :=
  array_map buildAnthropicMessage messages.

End AnthropicHelpers.

(* ================================================================= *)
(** ** [bedrock/index.ts] *)

Record LobeBedrockAIParams := {
  accessKeyId : option string;
  accessKeySecret : option string;
  params_region : option string
}.

Record LobeBedrockAI := {
  client : BedrockRuntimeClient;
  region : string
}.

(** [x === s] for a value [x] that is a string or [undefined]. *)
Definition strict_equal (x : option string) (s : string) : bool :=
  match x with
  | Some v => String.eqb v s
  | None => false
  end.

(** [options?.callback] *)
Definition options_callback (options : option ChatCompetitionOptions)
  : option ChatStreamCallbacks :=
  match options with
  | Some o => callback o
  | None => None
  end.

(** [messages.find(p)] is [List.find]; [messages.filter(p)] is [List.filter]. *)
Definition is_system (m : OpenAIChatMessage) : bool := role_eqb (role m) role_system.

Section Bedrock.

Context {C : Collaborators}.

(** The constructor.  The guard [!(accessKeyId && accessKeySecret)] passes
    only when both are present and non-empty; past it both are strings.  The
    event [ev_new_client c] records that [new BedrockRuntimeClient(c)] is
    evaluated; what that call throws leaves the constructor unchanged. *)
Definition LobeBedrockAI_constructor (params : LobeBedrockAIParams)
  : Run LobeBedrockAI :=
  match accessKeyId params, accessKeySecret params with
  | Some id, Some secret =>
      if negb (truthy_string id && truthy_string secret)
      then throw (thrown_agent
                    (AgentRuntimeError_createError InvalidBedrockCredentials))
      else
        let this_region := nullish_or (params_region params) "us-east-1" in
        let this_client := {| credentials_accessKeyId := id;
                              credentials_secretAccessKey := secret;
                              client_region := this_region |} in
        emit (ev_new_client this_client) ;;;
        lift (new_BedrockRuntimeClient this_client) ;;;
        ret {| client := this_client; region := this_region |}
  | _, _ =>
      throw (thrown_agent
               (AgentRuntimeError_createError InvalidBedrockCredentials))
  end.

Definition console_error (t : Thrown) : Run unit := emit (ev_console_error t).

(** [debugStream(s)]: the call starts the drain and hands back its promise. *)
Definition call_debugStream (s : ReadableStream) : Run (Completion unit) :=
  emit (ev_debugStream s) ;;; ret (debugStream s).

(** [p.catch(handler)]: the handler runs if [p] rejects; the value is the
    promise of the handler's own completion. *)
Definition promise_catch (p : Completion unit) (handler : Thrown -> Run unit)
  : Run (Completion unit) :=
  match p with
  | Normal v => ret (Normal v)
  | Abrupt t => let '(c, w) := handler t in (Normal c, w)
  end.

(** The statement shared by both paths:
    [if (process.env.DEBUG_BEDROCK_CHAT_COMPLETION === '1')
       debugStream(debug).catch(console.error);] *)
Definition debug_if_enabled (debug : ReadableStream) : Run unit :=
  if strict_equal (process_env "DEBUG_BEDROCK_CHAT_COMPLETION") "1"
  then (p <- call_debugStream debug ;;
        promise_catch p console_error ;;;
        ret tt)
  else ret tt.

Definition invokeClaudeModel (self : LobeBedrockAI) (payload : ChatStreamPayload)
    (options : option ChatCompetitionOptions) : Run StreamingTextResponse :=
  let system_message := find is_system (messages payload) in
  let user_messages := filter (fun m => negb (is_system m)) (messages payload) in
  converted <- lift (buildAnthropicMessages user_messages) ;;
  let command :=
    {| accept := "application/json";
       body := JSON_stringify
         [("anthropic_version", Some (JString "bedrock-2023-05-31"));
          ("max_tokens",
            Some (json_of_number (number_or (max_tokens payload) 4096)));
          ("messages", Some (JArray (map json_of_message converted)));
          ("system",
            option_map (fun m => json_of_content (content m)) system_message);
          ("temperature", option_map json_of_number (temperature payload));
          ("top_p", option_map json_of_number (top_p payload))];
       contentType := "application/json";
       modelId := model payload |} in
  try_catch
    (emit (ev_send (client self) command) ;;;
     bedrockResponse <- lift (client_send (client self) command) ;;
     stream <- lift (AWSBedrockStream bedrockResponse (options_callback options)) ;;
     let '(debug, output) := tee stream in
     debug_if_enabled debug ;;;
     ret {| response_stream := output |})
    (fun err =>
       throw (thrown_agent (AgentRuntimeError_chat
         {| error := Some {| error_body := err_metadata err;
                             error_message := err_message err;
                             error_region := None;
                             error_type := err_name err |};
            errorType := BedrockBizError;
            provider := Some Bedrock;
            payload_region := Some (region self) |}))).

Definition invokeLlamaModel (self : LobeBedrockAI) (payload : ChatStreamPayload)
  : Run StreamingTextResponse :=
  prompt <- lift (experimental_buildLlama2Prompt (messages payload)) ;;
  let command :=
    {| accept := "application/json";
       body := JSON_stringify
         [("max_gen_len",
            Some (json_of_number (number_or (max_tokens payload) 400)));
          ("prompt", Some (JString prompt))];
       contentType := "application/json";
       modelId := model payload |} in
  try_catch
    (emit (ev_send (client self) command) ;;;
     bedrockResponse <- lift (client_send (client self) command) ;;
     stream <- lift (AWSBedrockLlama2Stream bedrockResponse) ;;
     let '(debug, output) := tee stream in
     debug_if_enabled debug ;;;
     ret {| response_stream := output |})
    (fun err =>
       throw (thrown_agent (AgentRuntimeError_chat
         {| error := Some {| error_body := err_metadata err;
                             error_message := err_message err;
                             error_region := Some (region self);
                             error_type := err_name err |};
            errorType := BedrockBizError;
            provider := Some Bedrock;
            payload_region := Some (region self) |}))).

Definition chat (self : LobeBedrockAI) (payload : ChatStreamPayload)
    (options : option ChatCompetitionOptions) : Run StreamingTextResponse :=
  if String.prefix "meta" (model payload)
  then invokeLlamaModel self payload
  else invokeClaudeModel self payload options.

End Bedrock.

(** Record updates used to compare two runs. *)
Definition with_max_tokens (v : option float) (p : ChatStreamPayload)
  : ChatStreamPayload :=
  {| max_tokens := v;
     messages := messages p;
     model := model p;
     temperature := temperature p;
     top_p := top_p p |}.

Definition with_debugStream (d : ReadableStream -> Completion unit)
    (C : Collaborators) : Collaborators :=
  {| new_BedrockRuntimeClient := new_BedrockRuntimeClient;
     parseDataUri := parseDataUri;
     experimental_buildLlama2Prompt := experimental_buildLlama2Prompt;
     client_send := client_send;
     AWSBedrockStream := AWSBedrockStream;
     AWSBedrockLlama2Stream := AWSBedrockLlama2Stream;
     process_env := process_env;
     debugStream := d |}.

(** The stream parser of the path a model identifier selects. *)
Definition stream_parser {C : Collaborators} (payload : ChatStreamPayload)
    (options : option ChatCompetitionOptions) (r : BedrockResponse)
  : Completion ReadableStream :=
  if String.prefix "meta" (model payload)
  then AWSBedrockLlama2Stream r
  else AWSBedrockStream r (options_callback options).

(** The role a message carries to the vendor, as the spec tabulates it. *)
Definition remapped (r : LLMRoleType) : LLMRoleType :=
  match r with
  | role_system | role_function => role_assistant
  | role_user => role_user
  | role_assistant => role_assistant
  end.

(* ================================================================= *)
(** ** A concrete set of collaborators

    Used to run the adapter on concrete inputs. *)

(** What the decode step throws on a malformed URI. *)
Definition malformed_data_uri : Thrown :=
  thrown_error {| name := Some "Error";
                  message := Some "malformed data URI";
                  metadata := None |}.

(** Modelled from the spec: [parseDataUri] lives in [./uriParser], which is not
    part of the sources at hand.  The spec has it decode a data URI (a string
    with an embedded MIME type and base64 payload) into
    [{mimeType, base64Payload}], so that ["data:image/png;base64,AAAA"] gives
    ["image/png"] and ["AAAA"], and has the decode step fail on a malformed
    URI. *)
Definition parseDataUri_spec (uri : string) : Completion UriParserResult :=
  let malformed := Abrupt malformed_data_uri in
  if String.prefix "data:" uri then
    let rest := substring 5 (String.length uri - 5) uri in
    match index 0 ";base64," rest with
    | Some i =>
        Normal {| base64 := Some (JString (substring (i + 8)
                                             (String.length rest - (i + 8)) rest));
                  mimeType := Some (JString (substring 0 i rest)) |}
    | None => malformed
    end
  else malformed.

Definition text_of (m : OpenAIChatMessage) : string :=
  match content m with
  | content_string s => s
  | content_parts _ => ""
  end.

(** What the SDK's constructor throws on a region that is falsy. *)
Definition region_is_missing : Thrown :=
  thrown_error {| name := Some "Error";
                  message := Some "Region is missing";
                  metadata := None |}.

(** The SDK's client constructor, as far as its region check goes: it
    resolves the region when the client is constructed and refuses an empty
    one. *)
Definition sdk_new_client (c : BedrockRuntimeClient) : Completion unit :=
  if truthy_string (client_region c) then Normal tt else Abrupt region_is_missing.

(** A vendor error as the SDK throws it. *)
Definition ThrottlingException : Thrown :=
  thrown_error {| name := Some "ThrottlingException";
                  message := Some "Too many requests";
                  metadata := Some (JObject [("httpStatusCode", JNumber 429)]) |}.

Definition sink_failure : Thrown :=
  thrown_error {| name := Some "Error";
                  message := Some "debug sink closed";
                  metadata := None |}.

(** The vendor answers; the debug toggle is on and the debug sink fails. *)
Definition answering : Collaborators :=
  {| new_BedrockRuntimeClient := sdk_new_client;
     parseDataUri := parseDataUri_spec;
     experimental_buildLlama2Prompt :=
       fun ms => Normal (String.concat " " (map text_of ms));
     client_send := fun _ _ => Normal {| response_chunks := [JString "Hel"; JString "lo"] |};
     AWSBedrockStream := fun _ _ => Normal {| chunks := ["Hel"; "lo"] |};
     AWSBedrockLlama2Stream := fun _ => Normal {| chunks := ["Hel"; "lo"] |};
     process_env :=
       fun k => if String.eqb k "DEBUG_BEDROCK_CHAT_COMPLETION" then Some "1" else None;
     debugStream := fun _ => Abrupt sink_failure |}.

(** The vendor throttles every request; the debug toggle is off. *)
Definition throttling : Collaborators :=
  {| new_BedrockRuntimeClient := sdk_new_client;
     parseDataUri := parseDataUri_spec;
     experimental_buildLlama2Prompt :=
       fun ms => Normal (String.concat " " (map text_of ms));
     client_send := fun _ _ => Abrupt ThrottlingException;
     AWSBedrockStream := fun _ _ => Normal {| chunks := [] |};
     AWSBedrockLlama2Stream := fun _ => Normal {| chunks := [] |};
     process_env := fun _ => None;
     debugStream := fun _ => Normal tt |}.

Definition sample_params : LobeBedrockAIParams :=
  {| accessKeyId := Some "AKIDEXAMPLE";
     accessKeySecret := Some "secret";
     params_region := None |}.

Definition sample_self : LobeBedrockAI :=
  {| client := {| credentials_accessKeyId := "AKIDEXAMPLE";
                  credentials_secretAccessKey := "secret";
                  client_region := "us-east-1" |};
     region := "us-east-1" |}.

Definition sample_messages : list OpenAIChatMessage :=
  [ {| content := content_string "be brief"; role := role_system |};
    {| content := content_string "hi"; role := role_user |};
    {| content := content_string "be kind"; role := role_system |};
    {| content := content_parts
         [part_text {| text := "look" |};
          part_image_url {| url := "data:image/png;base64,AAAA"; detail := None |}];
       role := role_user |} ].

Definition claude_payload : ChatStreamPayload :=
  {| max_tokens := None;
     messages := sample_messages;
     model := "anthropic.claude-3-sonnet-20240229-v1:0";
     temperature := Some 1%float;
     top_p := None |}.

Definition llama_payload : ChatStreamPayload :=
  {| max_tokens := None;
     messages := [ {| content := content_string "hi"; role := role_user |} ];
     model := "meta.llama2-13b-chat-v1";
     temperature := None;
     top_p := None |}.

Definition zero_payload : ChatStreamPayload :=
  with_max_tokens (Some 0%float) claude_payload.

Definition zero_llama_payload : ChatStreamPayload :=
  with_max_tokens (Some 0%float) llama_payload.

Definition empty_key_params : LobeBedrockAIParams :=
  {| accessKeyId := Some "";
     accessKeySecret := Some "secret";
     params_region := Some "eu-west-1" |}.

Definition empty_region_params : LobeBedrockAIParams :=
  {| accessKeyId := Some "AKIDEXAMPLE";
     accessKeySecret := Some "secret";
     params_region := Some "" |}.

Definition sample_image : ImageUrlContent :=
  {| url := "data:image/png;base64,AAAA"; detail := None |}.

Definition malformed_payload : ChatStreamPayload :=
  {| max_tokens := None;
     messages := [ {| content := content_parts
                        [part_image_url {| url := "not a data URI";
                                           detail := None |}];
                      role := role_user |} ];
     model := "anthropic.claude-3-sonnet-20240229-v1:0";
     temperature := None;
     top_p := None |}.

(* ================================================================= *)
(** ** Vocabulary of the statements *)

Definition is_text_part (p : UserMessageContentPart) : bool :=
  match p with
  | part_text _ => true
  | part_image_url _ => false
  end.

(** A message without an image: text content, or parts that are all text. *)
Definition text_only (m : OpenAIChatMessage) : bool :=
  match content m with
  | content_string _ => true
  | content_parts parts => forallb is_text_part parts
  end.

(** What the selected path evaluates before its [try] block: the prompt
    builder on all messages (Llama), the converter on the non-system messages
    (Claude).  [builder_throws payload t]: that evaluation throws [t]. *)
Definition builder_throws {C : Collaborators} (payload : ChatStreamPayload)
    (t : Thrown) : Prop :=
  if String.prefix "meta" (model payload)
  then experimental_buildLlama2Prompt (messages payload) = Abrupt t
  else buildAnthropicMessages
         (filter (fun m => negb (is_system m)) (messages payload)) = Abrupt t.

(** [builder_returns payload]: that evaluation returns. *)
Definition builder_returns {C : Collaborators} (payload : ChatStreamPayload) : Prop :=
  if String.prefix "meta" (model payload)
  then exists prompt,
         experimental_buildLlama2Prompt (messages payload) = Normal prompt
  else exists converted,
         buildAnthropicMessages
           (filter (fun m => negb (is_system m)) (messages payload))
         = Normal converted.

(** The key under which a path writes the token limit. *)
Definition limit_key (payload : ChatStreamPayload) : string :=
  if String.prefix "meta" (model payload) then "max_gen_len" else "max_tokens".

Definition with_sampling (t p : option float) (payload : ChatStreamPayload)
  : ChatStreamPayload :=
  {| max_tokens := max_tokens payload;
     messages := messages payload;
     model := model payload;
     temperature := t;
     top_p := p |}.

(** A URI parser that rejects everything; the vendor answers and the debug
    toggle is off. *)
Definition never_parses : Collaborators :=
  {| new_BedrockRuntimeClient := sdk_new_client;
     parseDataUri := fun _ => Abrupt malformed_data_uri;
     experimental_buildLlama2Prompt := fun _ => Abrupt malformed_data_uri;
     client_send := fun _ _ => Normal {| response_chunks := [JString "ok"] |};
     AWSBedrockStream := fun _ _ => Normal {| chunks := ["ok"] |};
     AWSBedrockLlama2Stream := fun _ => Normal {| chunks := ["ok"] |};
     process_env := fun _ => None;
     debugStream := fun _ => Normal tt |}.

(** A system message that carries an image, followed by a user text. *)
Definition system_image_payload : ChatStreamPayload :=
  {| max_tokens := Some 128%float;
     messages :=
       [ {| content := content_parts
              [part_image_url {| url := "not a data URI"; detail := None |}];
            role := role_system |};
         {| content := content_string "hi"; role := role_user |};
         {| content := content_string "done"; role := role_function |} ];
     model := "anthropic.claude-v2";
     temperature := Some 0%float;
     top_p := None |}.

(** A request whose temperature is negative zero. *)
Definition negative_zero_payload : ChatStreamPayload :=
  with_sampling (Some neg_zero) (Some 0%float) system_image_payload.

Definition unbounded_llama_payload : ChatStreamPayload :=
  with_max_tokens (Some infinity) llama_payload.

(** A request that holds a system message and nothing else. *)
Definition system_only_payload : ChatStreamPayload :=
  {| max_tokens := None;
     messages := [ {| content := content_string "be brief"; role := role_system |} ];
     model := "anthropic.claude-v2";
     temperature := None;
     top_p := None |}.

(* ================================================================= *)
(** ** Reasoning support *)

Lemma sent_app (w1 w2 : list Event) : sent (w1 ++ w2) = sent w1 ++ sent w2.
Proof.
  induction w1 as [|e w1 IH]; [reflexivity|].
  destruct e; simpl; rewrite IH; reflexivity.
Qed.

(** Unfolds the monad and the statement shared by both paths. *)
Ltac unfold_run :=
  unfold debug_if_enabled, call_debugStream, promise_catch, console_error,
    try_catch, bind, lift, emit, ret, throw, tee, outcome, trace in *.

(** Splits on the completion of every collaborator call left in the goal. *)
Ltac split_calls :=
  repeat match goal with
    | |- context [match ?c with Normal _ => _ | Abrupt _ => _ end] =>
        let E := fresh "E" in destruct c eqn:E; simpl
    | |- context [if strict_equal ?x ?s then _ else _] =>
        let E := fresh "E" in destruct (strict_equal x s) eqn:E; simpl
    | |- context [let '(_, _) := ?p in _] =>
        let E := fresh "E" in destruct p eqn:E; simpl
    end.

(** Names the one command a trace shows. *)
Ltac the_command H :=
  simpl in H;
  match type of H with
  | False => contradiction
  | _ \/ False => destruct H as [H|[]]; subst
  | _ => idtac
  end.

Section BedrockFacts.

Context {C : Collaborators}.

(** The Llama path sends one command, built from the prompt, unless the
    prompt builder throws; in that case it sends nothing and rejects with
    what the builder threw. *)
Lemma invokeLlamaModel_sent (self : LobeBedrockAI) (payload : ChatStreamPayload) :
  match experimental_buildLlama2Prompt (messages payload) with
  | Normal prompt =>
      sent (trace (invokeLlamaModel self payload)) =
        [ {| accept := "application/json";
             body := JSON_stringify
               [("max_gen_len",
                  Some (json_of_number (number_or (max_tokens payload) 400)));
                ("prompt", Some (JString prompt))];
             contentType := "application/json";
             modelId := model payload |} ]
  | Abrupt t => invokeLlamaModel self payload = (Abrupt t, [])
  end.
Proof.
  unfold invokeLlamaModel. unfold_run.
  destruct (experimental_buildLlama2Prompt (messages payload)) as [prompt|t];
    [|reflexivity].
  split_calls; reflexivity.
Qed.

(** The Claude path sends one command, built from the converted non-system
    messages, unless the conversion throws; in that case it sends nothing and
    rejects with what the conversion threw. *)
Lemma invokeClaudeModel_sent (self : LobeBedrockAI) (payload : ChatStreamPayload)
    (options : option ChatCompetitionOptions) :
  match buildAnthropicMessages
          (filter (fun m => negb (is_system m)) (messages payload)) with
  | Normal converted =>
      sent (trace (invokeClaudeModel self payload options)) =
        [ {| accept := "application/json";
             body := JSON_stringify
               [("anthropic_version", Some (JString "bedrock-2023-05-31"));
                ("max_tokens",
                  Some (json_of_number (number_or (max_tokens payload) 4096)));
                ("messages", Some (JArray (map json_of_message converted)));
                ("system",
                  option_map (fun m => json_of_content (content m))
                    (find is_system (messages payload)));
                ("temperature", option_map json_of_number (temperature payload));
                ("top_p", option_map json_of_number (top_p payload))];
             contentType := "application/json";
             modelId := model payload |} ]
  | Abrupt t => invokeClaudeModel self payload options = (Abrupt t, [])
  end.
Proof.
  unfold invokeClaudeModel. unfold_run.
  destruct (buildAnthropicMessages _) as [converted|t]; [|reflexivity].
  split_calls; reflexivity.
Qed.

(** Once the builder of the selected path has returned, [chat] sends exactly
    one command. *)
Lemma chat_sends_when_built (self : LobeBedrockAI) (payload : ChatStreamPayload)
    (options : option ChatCompetitionOptions) :
  builder_returns payload ->
  exists cmd, sent (trace (chat self payload options)) = [cmd].
Proof.
  unfold builder_returns, chat.
  destruct (String.prefix "meta" (model payload)); intros [built Hbuilt].
  - pose proof (invokeLlamaModel_sent self payload) as S.
    rewrite Hbuilt in S. eexists. exact S.
  - pose proof (invokeClaudeModel_sent self payload options) as S.
    rewrite Hbuilt in S. eexists. exact S.
Qed.

End BedrockFacts.

(* ================================================================= *)
(** ** The request bodies *)

Section RequestBodies.

Context {C : Collaborators}.

Variable self : LobeBedrockAI.
Variable payload : ChatStreamPayload.
Variable options : option ChatCompetitionOptions.

(** C1.  [chat] dispatches on whether the model identifier starts with
    ["meta"].  If it does, the call is the Llama path and every request body
    it sends has a [prompt] and a [max_gen_len] field and neither [messages]
    nor [system]; otherwise the call is the Claude path and every request
    body it sends has [messages], [anthropic_version] and [max_tokens]. *)
Theorem chat_dispatches_on_prefix :
  (if String.prefix "meta" (model payload)
   then chat self payload options = invokeLlamaModel self payload
   else chat self payload options = invokeClaudeModel self payload options)
  /\
  forall cmd, In cmd (sent (trace (chat self payload options))) ->
    if String.prefix "meta" (model payload)
    then has_field "prompt" (body cmd) /\ has_field "max_gen_len" (body cmd)
         /\ ~ has_field "messages" (body cmd) /\ ~ has_field "system" (body cmd)
    else has_field "messages" (body cmd)
         /\ has_field "anthropic_version" (body cmd)
         /\ has_field "max_tokens" (body cmd).
Proof.
  unfold chat.
  destruct (String.prefix "meta" (model payload)); split; try reflexivity;
    intros cmd H.
  - pose proof (invokeLlamaModel_sent self payload) as S.
    destruct (experimental_buildLlama2Prompt (messages payload));
      rewrite S in H; the_command H.
    unfold has_field; simpl.
    repeat split; first [discriminate | intros N; apply N; reflexivity].
  - pose proof (invokeClaudeModel_sent self payload options) as S.
    destruct (buildAnthropicMessages _); rewrite S in H; the_command H.
    unfold has_field; simpl. repeat split; discriminate.
Qed.

(** C7.  When the request carries no [max_tokens], every body sent on the
    Claude path has [max_tokens = 4096] and every body sent on the Llama path
    has [max_gen_len = 400]; and such a body is sent, in one command, whenever
    the builder of the selected path returns. *)
Theorem default_max_tokens_when_omitted :
  max_tokens payload = None ->
  (forall cmd, In cmd (sent (trace (chat self payload options))) ->
     if String.prefix "meta" (model payload)
     then field "max_gen_len" (body cmd) = Some (JNumber 400)
     else field "max_tokens" (body cmd) = Some (JNumber 4096))
  /\
  (builder_returns payload ->
   exists cmd,
     sent (trace (chat self payload options)) = [cmd]
     /\ if String.prefix "meta" (model payload)
        then field "max_gen_len" (body cmd) = Some (JNumber 400)
        else field "max_tokens" (body cmd) = Some (JNumber 4096)).
Proof.
  intros Hnone.
  assert (Hall : forall cmd, In cmd (sent (trace (chat self payload options))) ->
            if String.prefix "meta" (model payload)
            then field "max_gen_len" (body cmd) = Some (JNumber 400)
            else field "max_tokens" (body cmd) = Some (JNumber 4096)).
  { intros cmd H. unfold chat in H.
    destruct (String.prefix "meta" (model payload)).
    - pose proof (invokeLlamaModel_sent self payload) as S.
      destruct (experimental_buildLlama2Prompt (messages payload));
        rewrite S in H; the_command H.
      simpl. rewrite Hnone. reflexivity.
    - pose proof (invokeClaudeModel_sent self payload options) as S.
      destruct (buildAnthropicMessages _); rewrite S in H; the_command H.
      simpl. rewrite Hnone. reflexivity. }
  split; [exact Hall|].
  intros Hbuilt.
  destruct (@chat_sends_when_built C self payload options Hbuilt) as [cmd Hsent].
  exists cmd. split; [exact Hsent|].
  apply Hall. rewrite Hsent. left. reflexivity.
Qed.

End RequestBodies.

(* ================================================================= *)
(** ** Defaults and the system message *)

Lemma role_eqb_eq (a b : LLMRoleType) : role_eqb a b = true <-> a = b.
Proof. destruct a, b; simpl; split; congruence. Qed.

Lemma is_system_iff (m : OpenAIChatMessage) :
  is_system m = true <-> role m = role_system.
Proof. apply role_eqb_eq. Qed.

Lemma is_system_false_iff (m : OpenAIChatMessage) :
  negb (is_system m) = true <-> role m <> role_system.
Proof.
  rewrite negb_true_iff, <- is_system_iff.
  destruct (is_system m); split; congruence.
Qed.

(** [find] returns the first element that satisfies the test. *)
Lemma find_first (before after : list OpenAIChatMessage) (m : OpenAIChatMessage) :
  Forall (fun x => role x <> role_system) before ->
  role m = role_system ->
  find is_system (before ++ m :: after) = Some m.
Proof.
  intros Hbefore Hm. induction Hbefore as [|x before Hx _ IH]; simpl.
  - apply is_system_iff in Hm. rewrite Hm. reflexivity.
  - apply is_system_false_iff in Hx. apply negb_true_iff in Hx.
    rewrite Hx. exact IH.
Qed.

Lemma find_is_system_none (ms : list OpenAIChatMessage) :
  find is_system ms = None <-> ~ exists m, In m ms /\ role m = role_system.
Proof.
  split.
  - intros Hnone [m [Hin Hrole]].
    apply is_system_iff in Hrole.
    pose proof (find_none _ _ Hnone m Hin) as Hf. congruence.
  - intros Hno. destruct (find is_system ms) as [m|] eqn:E; [|reflexivity].
    apply find_some in E. destruct E as [Hin Hsys].
    exfalso. apply Hno. exists m. split; [exact Hin|].
    apply is_system_iff. exact Hsys.
Qed.

Lemma number_or_falsy (v d : float) :
  truthy_number v = false -> number_or (Some v) d = d.
Proof. intros H. unfold number_or. rewrite H. reflexivity. Qed.

Section DefaultsAndSystem.

Context {C : Collaborators}.

Variable self : LobeBedrockAI.
Variable payload : ChatStreamPayload.
Variable options : option ChatCompetitionOptions.

(** C9.  Zero is falsy, and a request whose [max_tokens] is supplied but
    falsy (zero in particular) behaves in every respect as the same request
    with [max_tokens] omitted: the bodies sent carry [max_tokens = 4096] on
    the Claude path and [max_gen_len = 400] on the Llama path; and such a body
    is sent, in one command, whenever the builder of the selected path
    returns. *)
Theorem falsy_max_tokens_as_omitted :
  truthy_number 0 = false /\
  forall v,
    max_tokens payload = Some v -> truthy_number v = false ->
    chat self payload options = chat self (with_max_tokens None payload) options
    /\ (forall cmd, In cmd (sent (trace (chat self payload options))) ->
          if String.prefix "meta" (model payload)
          then field "max_gen_len" (body cmd) = Some (JNumber 400)
          else field "max_tokens" (body cmd) = Some (JNumber 4096))
    /\ (builder_returns payload ->
        exists cmd,
          sent (trace (chat self payload options)) = [cmd]
          /\ if String.prefix "meta" (model payload)
             then field "max_gen_len" (body cmd) = Some (JNumber 400)
             else field "max_tokens" (body cmd) = Some (JNumber 4096)).
Proof.
  split; [reflexivity|].
  intros v Hsome Hfalsy.
  assert (Hall : forall cmd, In cmd (sent (trace (chat self payload options))) ->
            if String.prefix "meta" (model payload)
            then field "max_gen_len" (body cmd) = Some (JNumber 400)
            else field "max_tokens" (body cmd) = Some (JNumber 4096)).
  { intros cmd H. unfold chat in H.
    destruct (String.prefix "meta" (model payload)).
    + pose proof (invokeLlamaModel_sent self payload) as S.
      destruct (experimental_buildLlama2Prompt (messages payload));
        rewrite S in H; the_command H.
      simpl. rewrite Hsome, number_or_falsy by exact Hfalsy. reflexivity.
    + pose proof (invokeClaudeModel_sent self payload options) as S.
      destruct (buildAnthropicMessages _); rewrite S in H; the_command H.
      simpl. rewrite Hsome, number_or_falsy by exact Hfalsy. reflexivity. }
  split; [|split; [exact Hall|]].
  - unfold chat, invokeLlamaModel, invokeClaudeModel.
    destruct payload as [mt ms mdl temp tp]. simpl in *. subst mt.
    rewrite !number_or_falsy by exact Hfalsy. reflexivity.
  - intros Hbuilt.
    destruct (@chat_sends_when_built C self payload options Hbuilt) as [cmd Hsent].
    exists cmd. split; [exact Hsent|].
    apply Hall. rewrite Hsent. left. reflexivity.
Qed.

(** C4.  On the Claude path, a body that is sent has a [system] field exactly
    when some input message has role [system]; the field then holds the
    content of the first such message; and the [messages] field is the
    conversion of the input with every [system] message removed and all
    other messages kept. *)
Theorem claude_system_message_first_wins :
  String.prefix "meta" (model payload) = false ->
  forall cmd, In cmd (sent (trace (chat self payload options))) ->
    (has_field "system" (body cmd) <->
       exists m, In m (messages payload) /\ role m = role_system)
    /\ (forall before m after,
          messages payload = before ++ m :: after ->
          Forall (fun x => role x <> role_system) before ->
          role m = role_system ->
          field "system" (body cmd) = Some (json_of_content (content m)))
    /\ (exists kept converted,
          buildAnthropicMessages kept = Normal converted
          /\ field "messages" (body cmd) = Some (JArray (map json_of_message converted))
          /\ (forall m, In m kept <-> In m (messages payload) /\ role m <> role_system)
          /\ kept = filter (fun m => negb (is_system m)) (messages payload)).
Proof.
  intros Hclaude cmd H. unfold chat in H. rewrite Hclaude in H.
  pose proof (invokeClaudeModel_sent self payload options) as S.
  destruct (buildAnthropicMessages _) as [converted|t] eqn:Econv;
    rewrite S in H; the_command H.
  split; [|split].
  - unfold has_field. simpl.
    destruct (find is_system (messages payload)) as [m|] eqn:Efind; simpl.
    + split; [intros _|discriminate].
      apply find_some in Efind. destruct Efind as [Hin Hsys].
      exists m. split; [exact Hin | apply is_system_iff; exact Hsys].
    + apply find_is_system_none in Efind.
      destruct (temperature payload), (top_p payload); simpl;
        (split; [intros N; exfalso; apply N; reflexivity
                | intros E; exfalso; exact (Efind E)]).
  - intros before m after Hsplit Hbefore Hm. simpl.
    rewrite Hsplit, (@find_first before after m Hbefore Hm). reflexivity.
  - exists (filter (fun m => negb (is_system m)) (messages payload)), converted.
    split; [exact Econv|]. split; [reflexivity|]. split; [|reflexivity].
    intros m. rewrite filter_In, is_system_false_iff. reflexivity.
Qed.

(** C10.  On the Claude path, whatever the conversion of the non-system
    messages throws is what [chat] rejects with, unchanged, and nothing has
    been sent to the vendor: the body is built before the [try] block. *)
Theorem conversion_error_propagates_unwrapped :
  String.prefix "meta" (model payload) = false ->
  forall t,
    buildAnthropicMessages
      (filter (fun m => negb (is_system m)) (messages payload)) = Abrupt t ->
    chat self payload options = (Abrupt t, []).
Proof.
  intros Hclaude t Hconv. unfold chat. rewrite Hclaude.
  pose proof (invokeClaudeModel_sent self payload options) as S.
  rewrite Hconv in S. exact S.
Qed.

End DefaultsAndSystem.

(* ================================================================= *)
(** ** Failures *)

Lemma strict_equal_true (x : option string) (s : string) :
  strict_equal x s = true <-> x = Some s.
Proof.
  destruct x as [v|]; simpl.
  - rewrite String.eqb_eq. split; congruence.
  - split; discriminate.
Qed.

Section Failures.

Context {C : Collaborators}.

Variable self : LobeBedrockAI.
Variable payload : ChatStreamPayload.
Variable options : option ChatCompetitionOptions.

(** C3.  On either path, once the builder has returned, [chat] sends one
    command; and if the vendor call for that command throws, or the stream
    parser of the selected path throws on the vendor's response, then [chat]
    rejects with a [BedrockBizError] payload for provider [Bedrock] that
    carries the thrown value's [name] as error type, its [message], its
    [$metadata] and the region of the adapter instance. *)
Theorem vendor_failure_is_wrapped :
  builder_returns payload ->
  exists cmd,
    sent (trace (chat self payload options)) = [cmd]
    /\ forall t,
         (client_send (client self) cmd = Abrupt t
          \/ exists r, client_send (client self) cmd = Normal r
                       /\ stream_parser payload options r = Abrupt t) ->
         exists detail,
           outcome (chat self payload options) =
             Abrupt (thrown_agent (AgentRuntimeError_chat
                       {| error := Some detail;
                          errorType := BedrockBizError;
                          provider := Some Bedrock;
                          payload_region := Some (region self) |}))
           /\ error_type detail = err_name t
           /\ error_message detail = err_message t
           /\ error_body detail = err_metadata t.
Proof.
  intros Hbuilt.
  destruct (@chat_sends_when_built C self payload options Hbuilt) as [cmd Hsent].
  exists cmd. split; [exact Hsent|].
  assert (H : In cmd (sent (trace (chat self payload options))))
    by (rewrite Hsent; left; reflexivity).
  clear Hsent Hbuilt.
  intros t Hfail. unfold chat, stream_parser in *.
  destruct (String.prefix "meta" (model payload)).
  - pose proof (invokeLlamaModel_sent self payload) as S.
    destruct (experimental_buildLlama2Prompt (messages payload)) as [prompt|t0] eqn:E;
      rewrite S in H; the_command H.
    unfold invokeLlamaModel. rewrite E. unfold_run.
    destruct Hfail as [Hsend | [r [Hsend Hparse]]]; rewrite Hsend; simpl;
      [|rewrite Hparse; simpl]; eexists; repeat split.
  - pose proof (invokeClaudeModel_sent self payload options) as S.
    destruct (buildAnthropicMessages _) as [converted|t0] eqn:E;
      rewrite S in H; the_command H.
    unfold invokeClaudeModel. rewrite E. unfold_run.
    destruct Hfail as [Hsend | [r [Hsend Hparse]]]; rewrite Hsend; simpl;
      [|rewrite Hparse; simpl]; eexists; repeat split.
Qed.

End Failures.

(* ================================================================= *)
(** ** The debug drain *)

Section DebugDrain.

Context {C : Collaborators}.

Variable self : LobeBedrockAI.
Variable payload : ChatStreamPayload.
Variable options : option ChatCompetitionOptions.

(** C8.  What the debug drain settles to has no influence on how [chat]
    completes; and whenever a drain was started, the debug toggle was ["1"],
    [chat] fulfilled with a response, and a failure of that drain was written
    to the console. *)
Theorem debug_drain_is_isolated :
  (forall d,
     outcome (chat (C := with_debugStream d C) self payload options)
     = outcome (chat self payload options))
  /\
  (forall s,
     In (ev_debugStream s) (trace (chat self payload options)) ->
     process_env "DEBUG_BEDROCK_CHAT_COMPLETION" = Some "1"
     /\ (exists response, outcome (chat self payload options) = Normal response)
     /\ (forall t, debugStream s = Abrupt t ->
           In (ev_console_error t) (trace (chat self payload options)))).
Proof.
  split.
  - intros d. unfold chat, invokeLlamaModel, invokeClaudeModel.
    change (@buildAnthropicMessages (with_debugStream d C))
      with (@buildAnthropicMessages C).
    simpl.
    destruct (String.prefix "meta" (model payload)); unfold_run; simpl;
      split_calls; reflexivity.
  - intros s. unfold chat, invokeLlamaModel, invokeClaudeModel.
    destruct (String.prefix "meta" (model payload)); unfold_run; simpl;
      split_calls; simpl; intros H;
      repeat match goal with
        | H : _ \/ _ |- _ => destruct H
        | H : False |- _ => contradiction
        | H : ev_send _ _ = ev_debugStream _ |- _ => discriminate H
        | H : ev_console_error _ = ev_debugStream _ |- _ => discriminate H
        | H : ev_debugStream _ = ev_debugStream _ |- _ => injection H as H; subst
        end;
      (split; [apply strict_equal_true; assumption|]);
      (split; [eexists; reflexivity|]);
      intros t' Ht'; simpl; try congruence;
      match goal with
      | E : debugStream _ = Abrupt _ |- _ =>
          rewrite E in Ht'; injection Ht' as Ht'; subst; auto
      end.
Qed.

End DebugDrain.

(* ================================================================= *)
(** ** The constructor *)

(** C2.  If [accessKeyId] or [accessKeySecret] is absent or the empty string,
    the constructor throws the [InvalidBedrockCredentials] error and performs
    no effect: no client is constructed and nothing is sent.  If both are
    non-empty, it calls the SDK's client constructor once, with these
    credentials and the region supplied, or ["us-east-1"] if none was; when
    that call returns, the constructor returns the instance with this client
    and region; when that call throws, the constructor throws the same
    value. *)
Theorem constructor_requires_credentials {C : Collaborators}
    (params : LobeBedrockAIParams) :
  (accessKeyId params = None \/ accessKeyId params = Some ""
   \/ accessKeySecret params = None \/ accessKeySecret params = Some "" ->
   LobeBedrockAI_constructor params =
     (Abrupt (thrown_agent
                (AgentRuntimeError_createError InvalidBedrockCredentials)), []))
  /\
  (forall id secret,
     accessKeyId params = Some id -> accessKeySecret params = Some secret ->
     id <> "" -> secret <> "" ->
     exists self,
       client self = {| credentials_accessKeyId := id;
                        credentials_secretAccessKey := secret;
                        client_region := region self |}
       /\ (params_region params = None -> region self = "us-east-1")
       /\ (forall r, params_region params = Some r -> region self = r)
       /\ match new_BedrockRuntimeClient (client self) with
          | Normal _ =>
              LobeBedrockAI_constructor params
              = (Normal self, [ev_new_client (client self)])
          | Abrupt t =>
              LobeBedrockAI_constructor params
              = (Abrupt t, [ev_new_client (client self)])
          end).
Proof.
  unfold LobeBedrockAI_constructor. split.
  - intros H.
    destruct (accessKeyId params) as [[|a id]|], (accessKeySecret params) as [[|b secret]|];
      simpl; try reflexivity;
      repeat match goal with
        | H : _ \/ _ |- _ => destruct H
        | H : _ = _ |- _ => discriminate H
        end.
  - intros id secret Hid Hsecret Hid_ne Hsecret_ne. rewrite Hid, Hsecret.
    destruct id as [|a id]; [congruence|].
    destruct secret as [|b secret]; [congruence|].
    simpl.
    exists {| client := {| credentials_accessKeyId := String a id;
                           credentials_secretAccessKey := String b secret;
                           client_region := nullish_or (params_region params) "us-east-1" |};
              region := nullish_or (params_region params) "us-east-1" |}.
    split; [reflexivity|]. simpl.
    split; [intros Hr; rewrite Hr; reflexivity|].
    split; [intros r Hr; rewrite Hr; reflexivity|].
    unfold_run. simpl.
    destruct (new_BedrockRuntimeClient _) as [[]|t]; reflexivity.
Qed.

(* ================================================================= *)
(** ** The message converter *)

(** [array_map] is the element-wise image of its input, or the first exception. *)
Lemma array_map_elementwise {A B} (f : A -> Completion B) (xs : list A) :
  match array_map f xs with
  | Normal ys =>
      List.length ys = List.length xs
      /\ forall i x, nth_error xs i = Some x ->
           exists y, nth_error ys i = Some y /\ f x = Normal y
  | Abrupt t => exists x, In x xs /\ f x = Abrupt t
  end.
Proof.
  induction xs as [|x xs IH]; simpl.
  - split; [reflexivity|]. intros [|i] x H; discriminate H.
  - destruct (f x) as [y|t] eqn:Ex.
    + destruct (array_map f xs) as [ys|t].
      * destruct IH as [Hlen Hnth]. simpl. split; [congruence|].
        intros [|i] x' H; simpl in *.
        -- injection H as <-. exists y. split; [reflexivity | exact Ex].
        -- apply Hnth. exact H.
      * destruct IH as [x' [Hin Hx']]. exists x'. split; [right; exact Hin | exact Hx'].
    + exists x. split; [left; reflexivity | exact Ex].
Qed.

Section Converter.

Context {C : Collaborators}.

(** C5.  [buildAnthropicMessage] gives a message of role [system] or
    [function] the vendor role [assistant] and leaves [user] and [assistant]
    as they are; it throws only what converting the parts of the content
    throws, and never on text content.  [buildAnthropicMessages] returns a
    list as long as its input whose i-th element is [buildAnthropicMessage]
    of the i-th input, unless one of these conversions throws. *)
Theorem convert_messages_elementwise :
  (remapped role_system = role_assistant /\ remapped role_function = role_assistant
   /\ remapped role_user = role_user /\ remapped role_assistant = role_assistant)
  /\
  (forall m,
     match buildAnthropicMessage m with
     | Normal vm => vendor_role vm = remapped (role m)
     | Abrupt t =>
         exists parts, content m = content_parts parts
                       /\ array_map buildAnthropicBlock parts = Abrupt t
     end)
  /\
  (forall ms,
     match buildAnthropicMessages ms with
     | Normal out =>
         List.length out = List.length ms
         /\ forall i m, nth_error ms i = Some m ->
              exists vm, nth_error out i = Some vm
                         /\ buildAnthropicMessage m = Normal vm
     | Abrupt t => exists m, In m ms /\ buildAnthropicMessage m = Abrupt t
     end).
Proof.
  split; [repeat split|]. split.
  - intros [c r]. unfold buildAnthropicMessage. simpl.
    destruct c as [s|parts].
    + destruct r; reflexivity.
    + destruct (array_map buildAnthropicBlock parts) as [blocks|t] eqn:E.
      * destruct r; reflexivity.
      * exists parts. split; [reflexivity | exact E].
  - intros ms. apply array_map_elementwise.
Qed.

(** C6.  [buildAnthropicBlock] returns a text part as it is.  For an image
    part whose URI the parser decomposes into MIME type [m] and base64
    payload [d], it returns the block
    [{type: image, source: {type: base64, media_type: m, data: d}}]. *)
Theorem convert_content_part :
  (forall c,
     buildAnthropicBlock (part_text c) = Normal (block_text c)
     /\ json_of_block (block_text c) = json_of_part (part_text c))
  /\
  (forall image m d,
     parseDataUri (url image) =
       Normal {| base64 := Some (JString d); mimeType := Some (JString m) |} ->
     exists b,
       buildAnthropicBlock (part_image_url image) = Normal b
       /\ json_of_block b =
            JObject [("source", JObject [("data", JString d);
                                         ("media_type", JString m);
                                         ("type", JString "base64")]);
                     ("type", JString "image")]).
Proof.
  split.
  - intros c. split; reflexivity.
  - intros image m d Hparse. unfold buildAnthropicBlock. rewrite Hparse.
    eexists. split; reflexivity.
Qed.

End Converter.

(* ================================================================= *)
(** ** The theorems at concrete requests *)

(** The text round trip of the spec: one user message with text content. *)
Example convert_user_text :
  buildAnthropicMessages (C := answering)
    [ {| content := content_string "hi"; role := role_user |} ]
  = Normal [ {| vendor_content := vendor_string "hi"; vendor_role := role_user |} ].
Proof. reflexivity. Qed.

Lemma chat_dispatches_on_prefix_witness :
  List.length (sent (trace (chat (C := answering) sample_self llama_payload None))) = 1
  /\ Forall (fun cmd => has_field "prompt" (body cmd)
                        /\ has_field "max_gen_len" (body cmd)
                        /\ ~ has_field "messages" (body cmd)
                        /\ ~ has_field "system" (body cmd))
       (sent (trace (chat (C := answering) sample_self llama_payload None)))
  /\ List.length (sent (trace (chat (C := answering) sample_self claude_payload None))) = 1
  /\ Forall (fun cmd => has_field "messages" (body cmd)
                        /\ has_field "anthropic_version" (body cmd)
                        /\ has_field "max_tokens" (body cmd))
       (sent (trace (chat (C := answering) sample_self claude_payload None))).
Proof.
  split; [reflexivity|]. split; [|split; [reflexivity|]];
    apply Forall_forall; intros cmd H.
  - exact (proj2 (chat_dispatches_on_prefix (C := answering)
                    sample_self llama_payload None) cmd H).
  - exact (proj2 (chat_dispatches_on_prefix (C := answering)
                    sample_self claude_payload None) cmd H).
Defined.

Lemma constructor_requires_credentials_witness :
  LobeBedrockAI_constructor (C := answering) empty_key_params =
    (Abrupt (thrown_agent
               (AgentRuntimeError_createError InvalidBedrockCredentials)), [])
  /\ errorType (AgentRuntimeError_createError InvalidBedrockCredentials)
     = InvalidBedrockCredentials
  /\ (exists self,
        LobeBedrockAI_constructor (C := answering) sample_params
        = (Normal self, [ev_new_client (client self)])
        /\ region self = "us-east-1")
  /\ (exists self,
        LobeBedrockAI_constructor (C := answering) empty_region_params
        = (Abrupt region_is_missing, [ev_new_client (client self)])
        /\ region self = "").
Proof.
  split; [|split; [reflexivity|split]].
  - apply (proj1 (constructor_requires_credentials (C := answering) empty_key_params)).
    right; left; reflexivity.
  - destruct (proj2 (constructor_requires_credentials (C := answering) sample_params)
                "AKIDEXAMPLE" "secret" eq_refl eq_refl)
      as [self [Hclient [Hdefault [_ Hrun]]]];
      [discriminate | discriminate |].
    exists self. split; [|exact (Hdefault eq_refl)].
    rewrite Hclient, (Hdefault eq_refl) in Hrun. simpl in Hrun.
    rewrite Hclient, (Hdefault eq_refl). exact Hrun.
  - destruct (proj2 (constructor_requires_credentials (C := answering) empty_region_params)
                "AKIDEXAMPLE" "secret" eq_refl eq_refl)
      as [self [Hclient [_ [Hsupplied Hrun]]]];
      [discriminate | discriminate |].
    exists self. split; [|exact (Hsupplied "" eq_refl)].
    rewrite Hclient, (Hsupplied "" eq_refl) in Hrun. simpl in Hrun.
    rewrite Hclient, (Hsupplied "" eq_refl). exact Hrun.
Defined.

(** C2, as the claim words it, fails: with both credentials non-empty and an
    empty region, the SDK's client constructor refuses the configuration and
    no instance is constructed. *)
Lemma constructor_fails_on_empty_region :
  accessKeyId empty_region_params = Some "AKIDEXAMPLE"
  /\ accessKeySecret empty_region_params = Some "secret"
  /\ LobeBedrockAI_constructor (C := answering) empty_region_params
     = (Abrupt region_is_missing,
        [ev_new_client {| credentials_accessKeyId := "AKIDEXAMPLE";
                          credentials_secretAccessKey := "secret";
                          client_region := "" |}])
  /\ ~ exists self w,
        LobeBedrockAI_constructor (C := answering) empty_region_params
        = (Normal self, w).
Proof.
  split; [reflexivity|]. split; [reflexivity|]. split; [reflexivity|].
  intros [self [w H]]. discriminate H.
Qed.

Lemma vendor_failure_is_wrapped_witness :
  builder_returns (C := throttling) claude_payload
  /\ builder_returns (C := throttling) llama_payload
  /\ (exists detail,
        outcome (chat (C := throttling) sample_self claude_payload None) =
          Abrupt (thrown_agent (AgentRuntimeError_chat
                    {| error := Some detail;
                       errorType := BedrockBizError;
                       provider := Some Bedrock;
                       payload_region := Some "us-east-1" |}))
        /\ error_type detail = Some "ThrottlingException"
        /\ error_message detail = Some "Too many requests"
        /\ error_body detail = Some (JObject [("httpStatusCode", JNumber 429)]))
  /\ (exists detail,
        outcome (chat (C := throttling) sample_self llama_payload None) =
          Abrupt (thrown_agent (AgentRuntimeError_chat
                    {| error := Some detail;
                       errorType := BedrockBizError;
                       provider := Some Bedrock;
                       payload_region := Some "us-east-1" |}))
        /\ error_type detail = Some "ThrottlingException"
        /\ error_message detail = Some "Too many requests"
        /\ error_body detail = Some (JObject [("httpStatusCode", JNumber 429)])).
Proof.
  assert (Hclaude : builder_returns (C := throttling) claude_payload)
    by (simpl; eexists; reflexivity).
  assert (Hllama : builder_returns (C := throttling) llama_payload)
    by (simpl; eexists; reflexivity).
  split; [exact Hclaude|]. split; [exact Hllama|]. split.
  - destruct (@vendor_failure_is_wrapped throttling sample_self claude_payload None
                Hclaude) as [cmd [_ Hwrapped]].
    apply (Hwrapped ThrottlingException). left. reflexivity.
  - destruct (@vendor_failure_is_wrapped throttling sample_self llama_payload None
                Hllama) as [cmd [_ Hwrapped]].
    apply (Hwrapped ThrottlingException). left. reflexivity.
Defined.

Lemma claude_system_message_first_wins_witness :
  String.prefix "meta" (model claude_payload) = false
  /\ List.length (sent (trace (chat (C := answering) sample_self claude_payload None))) = 1
  /\ Forall (fun cmd => has_field "system" (body cmd)
                        /\ field "system" (body cmd) = Some (JString "be brief"))
       (sent (trace (chat (C := answering) sample_self claude_payload None))).
Proof.
  split; [reflexivity|]. split; [reflexivity|].
  apply Forall_forall. intros cmd H.
  destruct (@claude_system_message_first_wins answering sample_self claude_payload
              None eq_refl cmd H) as [Hiff [Hfirst _]].
  split.
  - apply Hiff. exists {| content := content_string "be brief"; role := role_system |}.
    split; [left; reflexivity | reflexivity].
  - apply (Hfirst [] {| content := content_string "be brief"; role := role_system |}
             (tl sample_messages)); [reflexivity | constructor | reflexivity].
Defined.

Lemma convert_content_part_witness :
  parseDataUri (Collaborators := answering) (url sample_image) =
    Normal {| base64 := Some (JString "AAAA"); mimeType := Some (JString "image/png") |}
  /\ exists b,
       buildAnthropicBlock (C := answering) (part_image_url sample_image) = Normal b
       /\ json_of_block b =
            JObject [("source", JObject [("data", JString "AAAA");
                                         ("media_type", JString "image/png");
                                         ("type", JString "base64")]);
                     ("type", JString "image")].
Proof.
  split; [reflexivity|].
  apply (proj2 (convert_content_part (C := answering)) sample_image "image/png" "AAAA").
  reflexivity.
Defined.

Lemma default_max_tokens_when_omitted_witness :
  max_tokens claude_payload = None /\ max_tokens llama_payload = None
  /\ builder_returns (C := answering) claude_payload
  /\ builder_returns (C := answering) llama_payload
  /\ (exists cmd,
        sent (trace (chat (C := answering) sample_self claude_payload None)) = [cmd]
        /\ field "max_tokens" (body cmd) = Some (JNumber 4096))
  /\ (exists cmd,
        sent (trace (chat (C := answering) sample_self llama_payload None)) = [cmd]
        /\ field "max_gen_len" (body cmd) = Some (JNumber 400)).
Proof.
  assert (Hclaude : builder_returns (C := answering) claude_payload)
    by (simpl; eexists; reflexivity).
  assert (Hllama : builder_returns (C := answering) llama_payload)
    by (simpl; eexists; reflexivity).
  split; [reflexivity|]. split; [reflexivity|].
  split; [exact Hclaude|]. split; [exact Hllama|]. split.
  - exact (proj2 (@default_max_tokens_when_omitted answering sample_self
                    claude_payload None eq_refl) Hclaude).
  - exact (proj2 (@default_max_tokens_when_omitted answering sample_self
                    llama_payload None eq_refl) Hllama).
Defined.

Lemma debug_drain_is_isolated_witness :
  In (ev_debugStream {| chunks := ["Hel"; "lo"] |})
     (trace (chat (C := answering) sample_self claude_payload None))
  /\ debugStream (Collaborators := answering) {| chunks := ["Hel"; "lo"] |}
     = Abrupt sink_failure
  /\ (exists response,
        outcome (chat (C := answering) sample_self claude_payload None) = Normal response)
  /\ In (ev_console_error sink_failure)
        (trace (chat (C := answering) sample_self claude_payload None)).
Proof.
  assert (H : In (ev_debugStream {| chunks := ["Hel"; "lo"] |})
                (trace (chat (C := answering) sample_self claude_payload None)))
    by (vm_compute; right; left; reflexivity).
  destruct (proj2 (debug_drain_is_isolated (C := answering)
                     sample_self claude_payload None) _ H) as [_ [Hok Hlogged]].
  split; [exact H|]. split; [reflexivity|]. split; [exact Hok|].
  apply Hlogged. reflexivity.
Defined.

Lemma falsy_max_tokens_as_omitted_witness :
  max_tokens zero_payload = Some 0%float
  /\ max_tokens zero_llama_payload = Some 0%float
  /\ builder_returns (C := answering) zero_payload
  /\ builder_returns (C := answering) zero_llama_payload
  /\ chat (C := answering) sample_self zero_payload None
     = chat (C := answering) sample_self (with_max_tokens None zero_payload) None
  /\ (exists cmd,
        sent (trace (chat (C := answering) sample_self zero_payload None)) = [cmd]
        /\ field "max_tokens" (body cmd) = Some (JNumber 4096))
  /\ (exists cmd,
        sent (trace (chat (C := answering) sample_self zero_llama_payload None)) = [cmd]
        /\ field "max_gen_len" (body cmd) = Some (JNumber 400)).
Proof.
  assert (Hclaude : builder_returns (C := answering) zero_payload)
    by (simpl; eexists; reflexivity).
  assert (Hllama : builder_returns (C := answering) zero_llama_payload)
    by (simpl; eexists; reflexivity).
  split; [reflexivity|]. split; [reflexivity|].
  split; [exact Hclaude|]. split; [exact Hllama|].
  destruct (proj2 (falsy_max_tokens_as_omitted (C := answering)
                     sample_self zero_payload None) 0%float eq_refl eq_refl)
    as [Hsame [_ Hsent_claude]].
  destruct (proj2 (falsy_max_tokens_as_omitted (C := answering)
                     sample_self zero_llama_payload None) 0%float eq_refl eq_refl)
    as [_ [_ Hsent_llama]].
  split; [exact Hsame|]. split.
  - exact (Hsent_claude Hclaude).
  - exact (Hsent_llama Hllama).
Defined.

Lemma conversion_error_propagates_unwrapped_witness :
  String.prefix "meta" (model malformed_payload) = false
  /\ buildAnthropicMessages (C := throttling)
       (filter (fun m => negb (is_system m)) (messages malformed_payload))
     = Abrupt malformed_data_uri
  /\ chat (C := throttling) sample_self malformed_payload None
     = (Abrupt malformed_data_uri, []).
Proof.
  split; [reflexivity|]. split; [reflexivity|].
  apply (@conversion_error_propagates_unwrapped throttling sample_self
           malformed_payload None); reflexivity.
Defined.

(* ================================================================= *)
(** ** Further properties: effects and outcomes of [chat] *)

(** Reads every event of a concrete trace out of a membership hypothesis. *)
Ltac trace_cases H :=
  simpl in H;
  repeat match type of H with
    | _ \/ _ => destruct H as [H|H]
    | False => contradiction
    end;
  try discriminate H.

(** As [split_calls], innermost call first: a scrutinee that itself waits for
    a call is left for later. *)
Ltac split_inner_calls :=
  repeat match goal with
    | |- context [match ?c with Normal _ => _ | Abrupt _ => _ end] =>
        lazymatch c with
        | context [match _ with Normal _ => _ | Abrupt _ => _ end] => fail
        | context [if _ then _ else _] => fail
        | _ => let E := fresh "E" in destruct c eqn:E; simpl
        end
    | |- context [if strict_equal ?x ?s then _ else _] =>
        let E := fresh "E" in destruct (strict_equal x s) eqn:E; simpl
    end.

Section ChatEffects.

Context {C : Collaborators}.

Variable self : LobeBedrockAI.
Variable payload : ChatStreamPayload.
Variable options : option ChatCompetitionOptions.

(** X1.  Every command [chat] sends goes through the instance's own client,
    has [accept] and [contentType] ["application/json"] and carries the
    request's model identifier as [modelId]; the model identifier is not a
    field of the body. *)
Theorem command_envelope :
  forall c cmd,
    In (ev_send c cmd) (trace (chat self payload options)) ->
    c = client self
    /\ accept cmd = "application/json"
    /\ contentType cmd = "application/json"
    /\ modelId cmd = model payload
    /\ ~ has_field "model" (body cmd)
    /\ ~ has_field "modelId" (body cmd).
Proof.
  intros c cmd. unfold chat, invokeLlamaModel, invokeClaudeModel, has_field.
  destruct (String.prefix "meta" (model payload)); unfold_run; simpl;
    split_calls; intros H; trace_cases H; injection H as <- <-; simpl;
    repeat split;
    try (intros N; apply N; reflexivity);
    destruct (find is_system (messages payload)), (temperature payload),
      (top_p payload); simpl; intros N; apply N; reflexivity.
Qed.

(** X2.  The effects of one [chat] call are, in order: nothing at all; or one
    send; or one send and one debug drain that succeeded; or one send, one
    debug drain that failed and one console line with that failure.  So a call
    sends at most once (no retry), never creates a client, and writes to the
    console only what a failed drain threw. *)
Theorem chat_trace_shape :
  trace (chat self payload options) = []
  \/ (exists cmd, trace (chat self payload options) = [ev_send (client self) cmd])
  \/ (exists cmd s,
        trace (chat self payload options)
        = [ev_send (client self) cmd; ev_debugStream s]
        /\ debugStream s = Normal tt)
  \/ (exists cmd s t,
        trace (chat self payload options)
        = [ev_send (client self) cmd; ev_debugStream s; ev_console_error t]
        /\ debugStream s = Abrupt t).
Proof.
  unfold chat, invokeLlamaModel, invokeClaudeModel.
  destruct (String.prefix "meta" (model payload)); unfold_run; simpl;
    split_calls;
    first
      [ left; reflexivity
      | right; left; eexists; reflexivity
      | right; right; left; do 2 eexists; split; [reflexivity|];
        match goal with E : debugStream _ = Normal ?u |- _ =>
          destruct u; exact E end
      | right; right; right; do 3 eexists; split; [reflexivity|]; eassumption ].
Qed.

(** X3.  How a [chat] call ends.  If it fulfils, it sent exactly one command,
    the vendor answered it, and the response holds the stream that the parser
    of the selected path made of the answer.  If it rejects, then either the
    builder threw, nothing was sent and the rejection is what the builder
    threw; or exactly one command was sent and the rejection is a
    [BedrockBizError] payload. *)
Theorem chat_outcomes :
  match outcome (chat self payload options) with
  | Normal response =>
      exists cmd r,
        sent (trace (chat self payload options)) = [cmd]
        /\ client_send (client self) cmd = Normal r
        /\ stream_parser payload options r = Normal (response_stream response)
  | Abrupt t =>
      (builder_throws payload t /\ trace (chat self payload options) = [])
      \/ (exists cmd p,
            trace (chat self payload options) = [ev_send (client self) cmd]
            /\ t = thrown_agent (AgentRuntimeError_chat p)
            /\ errorType p = BedrockBizError)
  end.
Proof.
  unfold chat, invokeLlamaModel, invokeClaudeModel, builder_throws, stream_parser.
  destruct (String.prefix "meta" (model payload)); unfold_run; simpl;
    split_inner_calls;
    first
      [ left; split; [reflexivity | reflexivity]
      | right; do 2 eexists; split; [reflexivity|]; split; reflexivity
      | do 2 eexists; split; [reflexivity|]; split; eassumption ].
Qed.

End ChatEffects.

(* ================================================================= *)
(** ** Further properties: what the request fields do *)

(** [x || d] is truthy whenever the default is. *)
Lemma number_or_truthy (x : option float) (d : float) :
  truthy_number d = true -> truthy_number (number_or x d) = true.
Proof.
  intros Hd. destruct x as [v|]; simpl; [|exact Hd].
  destruct (truthy_number v) eqn:Ev; [exact Ev | exact Hd].
Qed.

Lemma truthy_not_zero (v : float) : truthy_number v = true -> is_zero v = false.
Proof.
  unfold truthy_number. rewrite negb_true_iff, orb_false_iff. intros [Hz _]. exact Hz.
Qed.

Lemma number_or_supplied (v d : float) :
  truthy_number v = true -> number_or (Some v) d = v.
Proof. intros H. unfold number_or. rewrite H. reflexivity. Qed.

(** The one command of a run, taken from either path's closed form. *)
Ltac sent_command H :=
  unfold chat in H;
  match type of H with
  | context [if ?b then _ else _] => destruct b eqn:?
  end;
  [ let S := fresh "S" in
    pose proof (invokeLlamaModel_sent
                  ltac:(match type of H with context [invokeLlamaModel ?s ?p] => exact s end)
                  ltac:(match type of H with context [invokeLlamaModel ?s ?p] => exact p end)) as S;
    match type of S with
    | match ?b with Normal _ => _ | Abrupt _ => _ end => destruct b eqn:?
    end; rewrite S in H; the_command H
  | let S := fresh "S" in
    pose proof (invokeClaudeModel_sent
                  ltac:(match type of H with context [invokeClaudeModel ?s ?p ?o] => exact s end)
                  ltac:(match type of H with context [invokeClaudeModel ?s ?p ?o] => exact p end)
                  ltac:(match type of H with context [invokeClaudeModel ?s ?p ?o] => exact o end)) as S;
    match type of S with
    | match ?b with Normal _ => _ | Abrupt _ => _ end => destruct b eqn:?
    end; rewrite S in H; the_command H ].

Section RequestFields.

Context {C : Collaborators}.

Variable self : LobeBedrockAI.
Variable payload : ChatStreamPayload.
Variable options : option ChatCompetitionOptions.

(** X4.  On the Llama path [chat] reads neither [temperature] nor [top_p] nor
    the caller's options: changing any of them changes nothing in the run. *)
Theorem llama_ignores_sampling_and_options :
  String.prefix "meta" (model payload) = true ->
  forall t p options',
    chat self (with_sampling t p payload) options' = chat self payload options.
Proof.
  intros Hllama t p options'. unfold chat. simpl. rewrite Hllama. reflexivity.
Qed.

(** X5.  A supplied truthy [max_tokens] (any number but [0], [-0] and [NaN])
    is written to the body as [JSON.stringify] writes it: unchanged when it is
    finite, whatever its sign or size, and as [null] when it is an infinity. *)
Theorem supplied_max_tokens_is_sent_unchanged :
  forall v,
    max_tokens payload = Some v -> truthy_number v = true ->
    forall cmd, In cmd (sent (trace (chat self payload options))) ->
      field (limit_key payload) (body cmd) = Some (json_of_number v)
      /\ (is_finite v = true ->
          field (limit_key payload) (body cmd) = Some (JNumber v))
      /\ (is_finite v = false ->
          field (limit_key payload) (body cmd) = Some JNull).
Proof.
  intros v Hsome Htruthy cmd H. unfold limit_key.
  assert (Hfield : field (if String.prefix "meta" (model payload)
                          then "max_gen_len" else "max_tokens") (body cmd)
                   = Some (json_of_number v)).
  { sent_command H; simpl;
      rewrite Hsome, (@number_or_supplied v _ Htruthy); reflexivity. }
  rewrite Hfield. unfold json_of_number. rewrite (truthy_not_zero v Htruthy).
  split; [reflexivity|].
  split; intros Hfin; rewrite Hfin; reflexivity.
Qed.

(** X6.  Whatever the request holds, the token limit written to a body is
    either [null] or a finite number that is neither zero nor [NaN]. *)
Theorem token_limit_is_never_zero :
  forall cmd, In cmd (sent (trace (chat self payload options))) ->
    field (limit_key payload) (body cmd) = Some JNull
    \/ exists v, field (limit_key payload) (body cmd) = Some (JNumber v)
                 /\ truthy_number v = true /\ is_finite v = true.
Proof.
  intros cmd H. unfold limit_key.
  sent_command H; simpl; unfold json_of_number;
    match goal with
    | |- context [is_finite ?x] =>
        assert (Htruthy : truthy_number x = true)
          by (apply number_or_truthy; reflexivity);
        rewrite (truthy_not_zero x Htruthy);
        destruct (is_finite x) eqn:Efin;
        [ right; exists x; split; [reflexivity|]; split; [exact Htruthy | exact Efin]
        | left; reflexivity ]
    end.
Qed.

(** X7.  On the Llama path, whatever the prompt builder throws is what [chat]
    rejects with, unchanged, and nothing has been sent. *)
Theorem prompt_error_propagates_unwrapped :
  String.prefix "meta" (model payload) = true ->
  forall t,
    experimental_buildLlama2Prompt (messages payload) = Abrupt t ->
    chat self payload options = (Abrupt t, []).
Proof.
  intros Hllama t Hprompt. unfold chat. rewrite Hllama.
  pose proof (invokeLlamaModel_sent self payload) as S.
  rewrite Hprompt in S. exact S.
Qed.

(** X8.  On the Claude path the body has a [temperature] field exactly when
    the request supplies one, and likewise for [top_p]; the value is the
    supplied number as [JSON.stringify] writes it.  Unlike [max_tokens], a
    supplied zero is kept: [0] and [-0] are both written [0]. *)
Theorem claude_sampling_fields :
  String.prefix "meta" (model payload) = false ->
  forall cmd, In cmd (sent (trace (chat self payload options))) ->
    field "temperature" (body cmd) = option_map json_of_number (temperature payload)
    /\ field "top_p" (body cmd) = option_map json_of_number (top_p payload)
    /\ (has_field "temperature" (body cmd) <-> temperature payload <> None)
    /\ (has_field "top_p" (body cmd) <-> top_p payload <> None)
    /\ (temperature payload = Some 0%float ->
        field "temperature" (body cmd) = Some (JNumber 0))
    /\ (temperature payload = Some neg_zero ->
        field "temperature" (body cmd) = Some (JNumber 0))
    /\ (top_p payload = Some 0%float \/ top_p payload = Some neg_zero ->
        field "top_p" (body cmd) = Some (JNumber 0)).
Proof.
  intros Hclaude cmd H. unfold chat in H. rewrite Hclaude in H.
  pose proof (invokeClaudeModel_sent self payload options) as S.
  destruct (buildAnthropicMessages _); rewrite S in H; the_command H.
  unfold has_field. simpl.
  destruct (find is_system (messages payload)), (temperature payload) as [t|],
    (top_p payload) as [p|]; simpl;
    (split; [reflexivity|]); (split; [reflexivity|]);
    (split; [split; congruence|]); (split; [split; congruence|]);
    (split; [intros H0; try discriminate H0; injection H0 as ->; reflexivity|]);
    (split; [intros H0; try discriminate H0; injection H0 as ->; reflexivity|]);
    intros [H0|H0]; try discriminate H0; injection H0 as ->; reflexivity.
Qed.

End RequestFields.

(* ================================================================= *)
(** ** Further properties: the converter *)

Lemma array_map_app {A B} (f : A -> Completion B) (xs ys : list A) :
  array_map f (xs ++ ys) =
    match array_map f xs with
    | Abrupt t => Abrupt t
    | Normal xs' =>
        match array_map f ys with
        | Abrupt t => Abrupt t
        | Normal ys' => Normal (xs' ++ ys')
        end
    end.
Proof.
  induction xs as [|x xs IH]; simpl.
  - destruct (array_map f ys); reflexivity.
  - destruct (f x) as [y|t]; [|reflexivity].
    rewrite IH. destruct (array_map f xs) as [xs'|t]; [|reflexivity].
    destruct (array_map f ys); reflexivity.
Qed.

(** What holds of every single result holds of every element of the output. *)
Lemma array_map_Forall {A B} (f : A -> Completion B) (P : B -> Prop) (xs : list A) :
  (forall x y, In x xs -> f x = Normal y -> P y) ->
  forall ys, array_map f xs = Normal ys -> Forall P ys.
Proof.
  induction xs as [|x xs IH]; simpl; intros HP ys Hmap.
  - injection Hmap as <-. constructor.
  - destruct (f x) as [y|t] eqn:Ex; [|discriminate Hmap].
    destruct (array_map f xs) as [ys'|t]; [|discriminate Hmap].
    injection Hmap as <-. constructor.
    + apply (HP x y); [left; reflexivity | exact Ex].
    + apply IH; [|reflexivity]. intros x' y' Hin. apply HP. right. exact Hin.
Qed.

(** If no element throws, neither does the traversal. *)
Lemma array_map_total {A B} (f : A -> Completion B) (xs : list A) :
  (forall x, In x xs -> exists y, f x = Normal y) ->
  exists ys, array_map f xs = Normal ys.
Proof.
  induction xs as [|x xs IH]; simpl; intros Hall.
  - exists []. reflexivity.
  - destruct (Hall x (or_introl eq_refl)) as [y Hy]. rewrite Hy.
    destruct IH as [ys Hys]; [intros x' Hin; apply Hall; right; exact Hin|].
    rewrite Hys. exists (y :: ys). reflexivity.
Qed.

(** Two callbacks that agree on every element give the same traversal. *)
Lemma array_map_ext {A B} (f g : A -> Completion B) (xs : list A) :
  (forall x, In x xs -> f x = g x) -> array_map f xs = array_map g xs.
Proof.
  induction xs as [|x xs IH]; simpl; intros Heq; [reflexivity|].
  rewrite (Heq x (or_introl eq_refl)), IH; [reflexivity|].
  intros x' Hin. apply Heq. right. exact Hin.
Qed.

Lemma buildAnthropicMessage_role {C : Collaborators} (m : OpenAIChatMessage)
    (vm : MessageParam) :
  buildAnthropicMessage m = Normal vm ->
  vendor_role vm = role_user \/ vendor_role vm = role_assistant.
Proof.
  unfold buildAnthropicMessage. destruct m as [c r]. simpl.
  destruct c as [s|parts];
    [|destruct (array_map buildAnthropicBlock parts); [|discriminate]];
    intros H; injection H as <-; destruct r; simpl; auto.
Qed.

(** A text-only message is converted without a call to the URI parser. *)
Lemma text_only_message_converts (C1 C2 : Collaborators) (m : OpenAIChatMessage) :
  text_only m = true ->
  buildAnthropicMessage (C := C1) m = buildAnthropicMessage (C := C2) m
  /\ exists vm, buildAnthropicMessage (C := C1) m = Normal vm.
Proof.
  unfold text_only, buildAnthropicMessage. destruct m as [c r]. simpl.
  destruct c as [s|parts]; intros Htext.
  - split; [reflexivity | eexists; reflexivity].
  - rewrite forallb_forall in Htext.
    assert (Hsame : array_map (buildAnthropicBlock (C := C1)) parts
                    = array_map (buildAnthropicBlock (C := C2)) parts).
    { apply array_map_ext. intros p Hin. specialize (Htext p Hin).
      destruct p; [reflexivity | discriminate Htext]. }
    assert (Htotal : exists blocks,
               array_map (buildAnthropicBlock (C := C1)) parts = Normal blocks).
    { apply array_map_total. intros p Hin. specialize (Htext p Hin).
      destruct p as [c|i]; [|discriminate Htext].
      exists (block_text c). reflexivity. }
    rewrite <- Hsame. destruct Htotal as [blocks Hblocks]. rewrite Hblocks.
    split; [reflexivity | eexists; reflexivity].
Qed.

Section ConverterFacts.

Context {C : Collaborators}.

(** X9.  Converting a concatenation is converting both halves and
    concatenating the results; if a message of the first half throws, that is
    the exception, whatever the second half holds. *)
Theorem convert_messages_app (before after : list OpenAIChatMessage) :
  buildAnthropicMessages (before ++ after) =
    match buildAnthropicMessages before with
    | Abrupt t => Abrupt t
    | Normal converted_before =>
        match buildAnthropicMessages after with
        | Abrupt t => Abrupt t
        | Normal converted_after => Normal (converted_before ++ converted_after)
        end
    end.
Proof. unfold buildAnthropicMessages. apply array_map_app. Qed.

(** X10.  A converted message keeps text content as it is.  Content made of
    parts becomes as many blocks, in the same order: a text part stays at its
    position unchanged, an image part becomes the image block of what the
    parser returned for its URL. *)
Theorem convert_message_content (m : OpenAIChatMessage) (vm : MessageParam) :
  buildAnthropicMessage m = Normal vm ->
  match content m with
  | content_string s => vendor_content vm = vendor_string s
  | content_parts parts =>
      exists blocks,
        vendor_content vm = vendor_blocks blocks
        /\ List.length blocks = List.length parts
        /\ (forall i c, nth_error parts i = Some (part_text c) ->
              nth_error blocks i = Some (block_text c))
        /\ (forall i image, nth_error parts i = Some (part_image_url image) ->
              exists parsed,
                parseDataUri (url image) = Normal parsed
                /\ nth_error blocks i
                   = Some (block_image {| data := base64 parsed;
                                          media_type := mimeType parsed |}))
  end.
Proof.
  unfold buildAnthropicMessage. destruct m as [c r]. simpl.
  destruct c as [s|parts].
  - intros H. injection H as <-. reflexivity.
  - pose proof (array_map_elementwise buildAnthropicBlock parts) as Hmap.
    destruct (array_map buildAnthropicBlock parts) as [blocks|t]; [|discriminate].
    intros H. injection H as <-. simpl.
    destruct Hmap as [Hlen Hnth].
    exists blocks. split; [reflexivity|]. split; [exact Hlen|]. split.
    + intros i c Hi. destruct (Hnth i _ Hi) as [b [Hb Hconv]].
      simpl in Hconv. injection Hconv as <-. exact Hb.
    + intros i image Hi. destruct (Hnth i _ Hi) as [b [Hb Hconv]].
      simpl in Hconv.
      destruct (parseDataUri (url image)) as [parsed|t]; [|discriminate Hconv].
      injection Hconv as <-. exists parsed. split; [reflexivity | exact Hb].
Qed.

End ConverterFacts.

(** X11.  On messages without images the converter never calls the URI
    parser: it returns a list, the same for every parser. *)
Theorem text_only_messages_convert (C1 C2 : Collaborators)
    (ms : list OpenAIChatMessage) :
  forallb text_only ms = true ->
  buildAnthropicMessages (C := C1) ms = buildAnthropicMessages (C := C2) ms
  /\ exists converted, buildAnthropicMessages (C := C1) ms = Normal converted.
Proof.
  intros Htext. rewrite forallb_forall in Htext. unfold buildAnthropicMessages.
  split.
  - apply array_map_ext. intros m Hin.
    apply (@text_only_message_converts C1 C2 m (Htext m Hin)).
  - apply array_map_total. intros m Hin.
    apply (@text_only_message_converts C1 C1 m (Htext m Hin)).
Qed.

(* ================================================================= *)
(** ** Further properties: the Claude body, the drain and the instance *)

(** Every send of [chat] goes through the instance's client. *)
Lemma send_through_own_client {C : Collaborators} (self : LobeBedrockAI)
    (payload : ChatStreamPayload) (options : option ChatCompetitionOptions)
    (c : BedrockRuntimeClient) (cmd : InvokeModelWithResponseStreamCommand) :
  In (ev_send c cmd) (trace (chat self payload options)) -> c = client self.
Proof.
  unfold chat, invokeLlamaModel, invokeClaudeModel.
  destruct (String.prefix "meta" (model payload)); unfold_run; simpl;
    split_calls; intros H; trace_cases H; injection H as <- _; reflexivity.
Qed.

Section ClaudeBodyAndDrain.

Context {C : Collaborators}.

Variable self : LobeBedrockAI.
Variable payload : ChatStreamPayload.
Variable options : option ChatCompetitionOptions.

(** X12.  On the Claude path the [messages] field of a body that is sent is an
    array with one element per input message whose role is not [system], and
    the [role] of every element is ["user"] or ["assistant"]: neither
    ["system"] nor ["function"] reaches the wire. *)
Theorem claude_wire_roles :
  String.prefix "meta" (model payload) = false ->
  forall cmd, In cmd (sent (trace (chat self payload options))) ->
    exists items,
      field "messages" (body cmd) = Some (JArray items)
      /\ List.length items
         = List.length (filter (fun m => negb (is_system m)) (messages payload))
      /\ Forall (fun item => field "role" item = Some (JString "user")
                             \/ field "role" item = Some (JString "assistant"))
           items.
Proof.
  intros Hclaude cmd H. unfold chat in H. rewrite Hclaude in H.
  pose proof (invokeClaudeModel_sent self payload options) as S.
  destruct (buildAnthropicMessages _) as [converted|t] eqn:Econv;
    rewrite S in H; the_command H.
  exists (map json_of_message converted). split; [reflexivity|]. split.
  - rewrite length_map.
    pose proof (array_map_elementwise buildAnthropicMessage
                  (filter (fun m => negb (is_system m)) (messages payload))) as Hmap.
    unfold buildAnthropicMessages in Econv. rewrite Econv in Hmap.
    exact (proj1 Hmap).
  - apply Forall_map.
    apply (array_map_Forall buildAnthropicMessage
             (fun vm => field "role" (json_of_message vm) = Some (JString "user")
                        \/ field "role" (json_of_message vm) = Some (JString "assistant"))
             (filter (fun m => negb (is_system m)) (messages payload)));
      [|exact Econv].
    intros m vm _ Hvm.
    destruct (buildAnthropicMessage_role _ Hvm) as [Hr|Hr]; simpl; rewrite Hr;
      [left | right]; reflexivity.
Qed.

(** X13.  On the Claude path the URI parser is never applied to a system
    message: if every message that is not a system message is free of images,
    one command is sent whatever the parser would do, and the content of the
    first system message travels in [system] as it came, image parts
    included. *)
Theorem system_images_are_not_decoded :
  String.prefix "meta" (model payload) = false ->
  (forall m, In m (messages payload) -> role m <> role_system -> text_only m = true) ->
  exists cmd,
    sent (trace (chat self payload options)) = [cmd]
    /\ field "system" (body cmd)
       = option_map (fun m => json_of_content (content m))
           (find is_system (messages payload)).
Proof.
  intros Hclaude Htext. unfold chat. rewrite Hclaude.
  pose proof (invokeClaudeModel_sent self payload options) as S.
  assert (Hconverts : exists converted,
             buildAnthropicMessages
               (filter (fun m => negb (is_system m)) (messages payload))
             = Normal converted).
  { unfold buildAnthropicMessages. apply array_map_total. intros m Hin.
    apply filter_In in Hin. destruct Hin as [Hin Hrole].
    apply (@text_only_message_converts C C m).
    apply Htext; [exact Hin | apply is_system_false_iff; exact Hrole]. }
  destruct Hconverts as [converted Hconv].
  rewrite Hconv in S. eexists. split; [exact S|].
  simpl. destruct (find is_system (messages payload)); simpl; [reflexivity|].
  destruct (temperature payload), (top_p payload); reflexivity.
Qed.

(** X14.  A debug drain, when one is started, reads a branch with the very
    chunks of the stream [chat] returns; and with the toggle at ["1"] every
    fulfilled [chat] has started one. *)
Theorem drain_reads_the_returned_stream :
  (forall s,
     In (ev_debugStream s) (trace (chat self payload options)) ->
     outcome (chat self payload options) = Normal {| response_stream := s |})
  /\
  (process_env "DEBUG_BEDROCK_CHAT_COMPLETION" = Some "1" ->
   forall response,
     outcome (chat self payload options) = Normal response ->
     In (ev_debugStream (response_stream response))
        (trace (chat self payload options))).
Proof.
  split.
  - intros s. unfold chat, invokeLlamaModel, invokeClaudeModel.
    destruct (String.prefix "meta" (model payload)); unfold_run; simpl;
      split_calls; intros H; trace_cases H; injection H as <-; reflexivity.
  - intros Henv response. apply strict_equal_true in Henv.
    unfold chat, invokeLlamaModel, invokeClaudeModel.
    destruct (String.prefix "meta" (model payload)); unfold_run; simpl;
      rewrite Henv; split_calls; intros H; try discriminate H;
      injection H as <-; simpl; auto.
Qed.

(** X15.  A rejection of [chat] that comes after a send is the payload built
    in the [catch] block; its inner error object names the region on the Llama
    path and has no [region] on the Claude path. *)
Theorem rejection_after_send :
  forall t,
    outcome (chat self payload options) = Abrupt t ->
    trace (chat self payload options) <> [] ->
    exists detail,
      t = thrown_agent (AgentRuntimeError_chat
            {| error := Some detail;
               errorType := BedrockBizError;
               provider := Some Bedrock;
               payload_region := Some (region self) |})
      /\ error_region detail
         = if String.prefix "meta" (model payload) then Some (region self) else None.
Proof.
  intros t. unfold chat, invokeLlamaModel, invokeClaudeModel.
  destruct (String.prefix "meta" (model payload)); unfold_run; simpl;
    split_calls; intros H Hne; try discriminate H;
    try (exfalso; apply Hne; reflexivity);
    injection H as <-; eexists; split; reflexivity.
Qed.

End ClaudeBodyAndDrain.

(** X16.  An instance that the constructor returned was built from two
    non-empty credentials; its client has the instance's region; and every
    command [chat] sends through it travels with exactly these credentials and
    the region supplied, or ["us-east-1"] if none was. *)
Theorem constructed_instance_sends_with_its_credentials {K : Collaborators}
    (params : LobeBedrockAIParams) (self : LobeBedrockAI) (w : list Event) :
  LobeBedrockAI_constructor (C := K) params = (Normal self, w) ->
  exists id secret,
    accessKeyId params = Some id /\ accessKeySecret params = Some secret
    /\ id <> "" /\ secret <> ""
    /\ w = [ev_new_client (client self)]
    /\ client_region (client self) = region self
    /\ forall (C : Collaborators) payload options c cmd,
         In (ev_send c cmd) (trace (chat self payload options)) ->
         credentials_accessKeyId c = id
         /\ credentials_secretAccessKey c = secret
         /\ client_region c = nullish_or (params_region params) "us-east-1".
Proof.
  unfold LobeBedrockAI_constructor.
  destruct (accessKeyId params) as [[|a id]|], (accessKeySecret params) as [[|b secret]|];
    simpl; intros H; try discriminate H.
  unfold_run. simpl in H.
  destruct (new_BedrockRuntimeClient _) as [[]|t]; [|discriminate H].
  injection H as <- <-.
  exists (String a id), (String b secret). simpl.
  repeat (split; [first [reflexivity | discriminate]|]).
  intros C payload options c cmd Hin.
  apply send_through_own_client in Hin. rewrite Hin. simpl.
  repeat split; reflexivity.
Qed.

(* ================================================================= *)
(** ** The further properties at concrete requests *)

Lemma command_envelope_witness :
  exists c cmd,
    In (ev_send c cmd) (trace (chat (C := answering) sample_self claude_payload None))
    /\ c = client sample_self
    /\ accept cmd = "application/json"
    /\ contentType cmd = "application/json"
    /\ modelId cmd = "anthropic.claude-3-sonnet-20240229-v1:0"
    /\ ~ has_field "model" (body cmd)
    /\ ~ has_field "modelId" (body cmd).
Proof.
  eassert (H : In (ev_send _ _)
                 (trace (chat (C := answering) sample_self claude_payload None)))
    by (simpl; left; reflexivity).
  do 2 eexists. split; [exact H|].
  exact (@command_envelope answering sample_self claude_payload None _ _ H).
Defined.

Lemma llama_ignores_sampling_and_options_witness :
  String.prefix "meta" (model llama_payload) = true
  /\ chat (C := answering) sample_self
       (with_sampling (Some 1%float) (Some 0.5%float) llama_payload)
       (Some {| callback := Some "onToken" |})
     = chat (C := answering) sample_self llama_payload None.
Proof.
  split; [reflexivity|].
  exact (@llama_ignores_sampling_and_options answering sample_self llama_payload
           None eq_refl (Some 1%float) (Some 0.5%float)
           (Some {| callback := Some "onToken" |})).
Defined.

Lemma supplied_max_tokens_is_sent_unchanged_witness :
  max_tokens system_image_payload = Some 128%float
  /\ truthy_number 128 = true
  /\ List.length (sent (trace (chat (C := never_parses) sample_self
                                 system_image_payload None))) = 1
  /\ Forall (fun cmd => field "max_tokens" (body cmd) = Some (JNumber 128))
       (sent (trace (chat (C := never_parses) sample_self system_image_payload None)))
  /\ truthy_number infinity = true
  /\ List.length (sent (trace (chat (C := answering) sample_self
                                 unbounded_llama_payload None))) = 1
  /\ Forall (fun cmd => field "max_gen_len" (body cmd) = Some JNull)
       (sent (trace (chat (C := answering) sample_self unbounded_llama_payload None))).
Proof.
  split; [reflexivity|]. split; [reflexivity|]. split; [reflexivity|].
  split; [|split; [reflexivity|split; [reflexivity|]]];
    apply Forall_forall; intros cmd H.
  - exact (proj1 (proj2 (@supplied_max_tokens_is_sent_unchanged never_parses
             sample_self system_image_payload None 128%float eq_refl eq_refl cmd H))
             eq_refl).
  - exact (proj2 (proj2 (@supplied_max_tokens_is_sent_unchanged answering
             sample_self unbounded_llama_payload None infinity eq_refl eq_refl cmd H))
             eq_refl).
Defined.

Lemma token_limit_is_never_zero_witness :
  List.length (sent (trace (chat (C := answering) sample_self zero_payload None))) = 1
  /\ Forall (fun cmd =>
               field "max_tokens" (body cmd) = Some JNull
               \/ exists v, field "max_tokens" (body cmd) = Some (JNumber v)
                            /\ truthy_number v = true /\ is_finite v = true)
       (sent (trace (chat (C := answering) sample_self zero_payload None))).
Proof.
  split; [reflexivity|]. apply Forall_forall. intros cmd H.
  exact (@token_limit_is_never_zero answering sample_self zero_payload None cmd H).
Defined.

Lemma prompt_error_propagates_unwrapped_witness :
  String.prefix "meta" (model llama_payload) = true
  /\ experimental_buildLlama2Prompt (Collaborators := never_parses)
       (messages llama_payload) = Abrupt malformed_data_uri
  /\ chat (C := never_parses) sample_self llama_payload None
     = (Abrupt malformed_data_uri, []).
Proof.
  split; [reflexivity|]. split; [reflexivity|].
  exact (@prompt_error_propagates_unwrapped never_parses sample_self llama_payload
           None eq_refl malformed_data_uri eq_refl).
Defined.

Lemma claude_sampling_fields_witness :
  String.prefix "meta" (model system_image_payload) = false
  /\ List.length (sent (trace (chat (C := never_parses) sample_self
                                 system_image_payload None))) = 1
  /\ Forall (fun cmd => field "temperature" (body cmd) = Some (JNumber 0)
                        /\ ~ has_field "top_p" (body cmd))
       (sent (trace (chat (C := never_parses) sample_self system_image_payload None)))
  /\ temperature negative_zero_payload = Some neg_zero
  /\ List.length (sent (trace (chat (C := never_parses) sample_self
                                 negative_zero_payload None))) = 1
  /\ Forall (fun cmd => field "temperature" (body cmd) = Some (JNumber 0)
                        /\ field "top_p" (body cmd) = Some (JNumber 0))
       (sent (trace (chat (C := never_parses) sample_self negative_zero_payload None))).
Proof.
  split; [reflexivity|]. split; [reflexivity|].
  split; [|split; [reflexivity|split; [reflexivity|]]];
    apply Forall_forall; intros cmd H.
  - destruct (@claude_sampling_fields never_parses sample_self system_image_payload
                None eq_refl cmd H) as [_ [_ [_ [Htop [Hzero _]]]]].
    split; [exact (Hzero eq_refl)|].
    intros Hhas. apply Htop in Hhas. apply Hhas. reflexivity.
  - destruct (@claude_sampling_fields never_parses sample_self negative_zero_payload
                None eq_refl cmd H) as [_ [_ [_ [_ [_ [Hneg Htop]]]]]].
    split; [exact (Hneg eq_refl) | exact (Htop (or_introl eq_refl))].
Defined.

Lemma convert_message_content_witness :
  exists vm,
    buildAnthropicMessage (C := answering)
      {| content := content_parts [part_text {| text := "look" |};
                                   part_image_url sample_image];
         role := role_user |} = Normal vm
    /\ exists blocks,
         vendor_content vm = vendor_blocks blocks
         /\ List.length blocks = 2
         /\ nth_error blocks 0 = Some (block_text {| text := "look" |}).
Proof.
  eexists. split; [reflexivity|].
  match goal with
  | |- exists blocks, vendor_content ?vm = _ /\ _ =>
      destruct (@convert_message_content answering
                  {| content := content_parts [part_text {| text := "look" |};
                                               part_image_url sample_image];
                     role := role_user |} vm eq_refl)
        as [blocks [Hcontent [Hlen [Htext _]]]]
  end.
  exists blocks. split; [exact Hcontent|]. split; [exact Hlen|].
  exact (Htext 0 {| text := "look" |} eq_refl).
Defined.

Lemma text_only_messages_convert_witness :
  forallb text_only (tl (messages system_image_payload)) = true
  /\ buildAnthropicMessages (C := never_parses) (tl (messages system_image_payload))
     = buildAnthropicMessages (C := answering) (tl (messages system_image_payload))
  /\ exists converted,
       buildAnthropicMessages (C := never_parses) (tl (messages system_image_payload))
       = Normal converted.
Proof.
  split; [reflexivity|].
  exact (@text_only_messages_convert never_parses answering
           (tl (messages system_image_payload)) eq_refl).
Defined.

Lemma claude_wire_roles_witness :
  String.prefix "meta" (model system_image_payload) = false
  /\ List.length (sent (trace (chat (C := never_parses) sample_self
                                 system_image_payload None))) = 1
  /\ Forall (fun cmd =>
               exists items,
                 field "messages" (body cmd) = Some (JArray items)
                 /\ List.length items = 2
                 /\ Forall (fun item =>
                              field "role" item = Some (JString "user")
                              \/ field "role" item = Some (JString "assistant"))
                      items)
       (sent (trace (chat (C := never_parses) sample_self system_image_payload None))).
Proof.
  split; [reflexivity|]. split; [reflexivity|].
  apply Forall_forall. intros cmd H.
  exact (@claude_wire_roles never_parses sample_self system_image_payload None
           eq_refl cmd H).
Defined.

Lemma system_images_are_not_decoded_witness :
  String.prefix "meta" (model system_image_payload) = false
  /\ exists cmd,
       sent (trace (chat (C := never_parses) sample_self system_image_payload None))
       = [cmd]
       /\ field "system" (body cmd)
          = Some (JArray [JObject [("type", JString "image_url");
                                   ("image_url",
                                     JObject [("url", JString "not a data URI")])]]).
Proof.
  split; [reflexivity|].
  apply (@system_images_are_not_decoded never_parses sample_self
           system_image_payload None eq_refl).
  simpl. intros m [<-|[<-|[<-|[]]]] Hrole; try reflexivity.
  exfalso. apply Hrole. reflexivity.
Defined.

Lemma rejection_after_send_witness :
  exists t detail,
    outcome (chat (C := throttling) sample_self llama_payload None) = Abrupt t
    /\ trace (chat (C := throttling) sample_self llama_payload None) <> []
    /\ t = thrown_agent (AgentRuntimeError_chat
             {| error := Some detail;
                errorType := BedrockBizError;
                provider := Some Bedrock;
                payload_region := Some "us-east-1" |})
    /\ error_region detail = Some "us-east-1".
Proof.
  eassert (H : outcome (chat (C := throttling) sample_self llama_payload None)
               = Abrupt _) by reflexivity.
  assert (Hne : trace (chat (C := throttling) sample_self llama_payload None) <> [])
    by (simpl; discriminate).
  destruct (@rejection_after_send throttling sample_self llama_payload None _ H Hne)
    as [detail [Ht Hregion]].
  eexists. exists detail.
  split; [exact H|]. split; [exact Hne|]. split; [exact Ht | exact Hregion].
Defined.

Lemma constructed_instance_sends_with_its_credentials_witness :
  LobeBedrockAI_constructor (C := answering) sample_params
    = (Normal sample_self, [ev_new_client (client sample_self)])
  /\ exists id secret,
       accessKeyId sample_params = Some id /\ accessKeySecret sample_params = Some secret
       /\ id <> "" /\ secret <> ""
       /\ [ev_new_client (client sample_self)] = [ev_new_client (client sample_self)]
       /\ client_region (client sample_self) = region sample_self
       /\ forall (C : Collaborators) payload options c cmd,
            In (ev_send c cmd) (trace (chat sample_self payload options)) ->
            credentials_accessKeyId c = id
            /\ credentials_secretAccessKey c = secret
            /\ client_region c = nullish_or (params_region sample_params) "us-east-1".
Proof.
  split; [reflexivity|].
  exact (@constructed_instance_sends_with_its_credentials answering sample_params
           sample_self [ev_new_client (client sample_self)] eq_refl).
Defined.

(* ================================================================= *)
(** ** Further properties: edge requests and the two body shapes *)

Lemma filter_all_system (ms : list OpenAIChatMessage) :
  (forall m, In m ms -> role m = role_system) ->
  filter (fun m => negb (is_system m)) ms = [].
Proof.
  induction ms as [|m ms IH]; simpl; intros Hall; [reflexivity|].
  rewrite (proj2 (is_system_iff m) (Hall m (or_introl eq_refl))). simpl.
  apply IH. intros m' Hin. apply Hall. right. exact Hin.
Qed.

Section EdgeRequests.

Context {C : Collaborators}.

Variable self : LobeBedrockAI.
Variable payload : ChatStreamPayload.
Variable options : option ChatCompetitionOptions.

(** X17.  On the Claude path a request with no message at all, or with system
    messages only, is not refused: one command is sent, and its [messages]
    field is the empty array. *)
Theorem claude_without_user_messages :
  String.prefix "meta" (model payload) = false ->
  (forall m, In m (messages payload) -> role m = role_system) ->
  exists cmd,
    sent (trace (chat self payload options)) = [cmd]
    /\ field "messages" (body cmd) = Some (JArray [])
    /\ (messages payload = [] -> ~ has_field "system" (body cmd)).
Proof.
  intros Hclaude Hall. unfold chat. rewrite Hclaude.
  pose proof (invokeClaudeModel_sent self payload options) as S.
  rewrite (filter_all_system _ Hall) in S. simpl in S.
  eexists. split; [exact S|]. split; [reflexivity|].
  intros Hempty. rewrite Hempty. unfold has_field. simpl.
  destruct (temperature payload), (top_p payload); simpl;
    intros N; apply N; reflexivity.
Qed.

(** X18.  The two body shapes share no key.  A body sent on the Llama path is
    exactly the object [{max_gen_len, prompt}], the prompt being what the
    builder made of all the messages, system messages included; a body sent on
    the Claude path has neither [prompt] nor [max_gen_len]. *)
Theorem body_shapes_are_disjoint :
  forall cmd, In cmd (sent (trace (chat self payload options))) ->
    if String.prefix "meta" (model payload)
    then exists prompt,
           experimental_buildLlama2Prompt (messages payload) = Normal prompt
           /\ body cmd
              = JObject [("max_gen_len",
                           json_of_number (number_or (max_tokens payload) 400));
                         ("prompt", JString prompt)]
    else ~ has_field "prompt" (body cmd) /\ ~ has_field "max_gen_len" (body cmd).
Proof.
  intros cmd H. sent_command H.
  - eexists. split; reflexivity.
  - unfold has_field. simpl.
    destruct (find is_system (messages payload)), (temperature payload),
      (top_p payload); simpl; split; intros N; apply N; reflexivity.
Qed.

End EdgeRequests.

Lemma claude_without_user_messages_witness :
  String.prefix "meta" (model system_only_payload) = false
  /\ exists cmd,
       sent (trace (chat (C := answering) sample_self system_only_payload None)) = [cmd]
       /\ field "messages" (body cmd) = Some (JArray [])
       /\ field "system" (body cmd) = Some (JString "be brief").
Proof.
  split; [reflexivity|].
  destruct (@claude_without_user_messages answering sample_self
              system_only_payload None eq_refl)
    as [cmd [Hsent [Hmessages _]]].
  - simpl. intros m [<-|[]]. reflexivity.
  - exists cmd. split; [exact Hsent|]. split; [exact Hmessages|].
    simpl in Hsent. injection Hsent as <-. reflexivity.
Defined.

Lemma body_shapes_are_disjoint_witness :
  List.length (sent (trace (chat (C := answering) sample_self llama_payload None))) = 1
  /\ Forall (fun cmd => body cmd = JObject [("max_gen_len", JNumber 400);
                                            ("prompt", JString "hi")])
       (sent (trace (chat (C := answering) sample_self llama_payload None)))
  /\ Forall (fun cmd => ~ has_field "prompt" (body cmd)
                        /\ ~ has_field "max_gen_len" (body cmd))
       (sent (trace (chat (C := answering) sample_self claude_payload None))).
Proof.
  split; [reflexivity|]. split; apply Forall_forall; intros cmd H.
  - destruct (@body_shapes_are_disjoint answering sample_self llama_payload None cmd H)
      as [prompt [Hprompt Hbody]].
    simpl in Hprompt. injection Hprompt as <-. exact Hbody.
  - exact (@body_shapes_are_disjoint answering sample_self claude_payload None cmd H).
Defined.

Lemma drain_reads_the_returned_stream_witness :
  process_env (Collaborators := answering) "DEBUG_BEDROCK_CHAT_COMPLETION" = Some "1"
  /\ outcome (chat (C := answering) sample_self llama_payload None)
     = Normal {| response_stream := {| chunks := ["Hel"; "lo"] |} |}
  /\ In (ev_debugStream {| chunks := ["Hel"; "lo"] |})
        (trace (chat (C := answering) sample_self llama_payload None)).
Proof.
  split; [reflexivity|]. split; [reflexivity|].
  exact (proj2 (@drain_reads_the_returned_stream answering sample_self llama_payload
                  None) eq_refl
           {| response_stream := {| chunks := ["Hel"; "lo"] |} |} eq_refl).
Defined.
